(** * kiss-orm: query fragments and the CRUD repository

    A shallow embedding of

    - [src/Query.ts]: the [Query] fragment class, its tagged-template
      constructor [createFromTemplateString] and [compile];
    - the two versions of [CrudRepository] ([get], [search], [create],
      [update], [delete], [createModelFromAttributes]), called [Upstream]
      (the first one) and [Fork] (the second one) below.

    JavaScript objects that the code mutates (the [parts] array filled by
    [push], the model objects written by [Object.assign]) live in an
    explicit store indexed by locations; everything the code only reads is
    an ordinary value. *)

From stdpp Require Import gmap strings list pretty.
From Stdlib Require Import ZArith.


(** ** JavaScript values that are bound as parameters and stored in rows

    The code never computes with numbers; it only tests [typeof], compares
    with [null], and passes values along.  Numbers are therefore carried as
    integers. *)

Inductive Value : Type :=
| VUndefined
| VNull
| VBoolean (b : bool)
| VNumber (n : Z)
| VString (s : string).

#[global] Instance Value_eq_dec : EqDecision Value.
Proof. solve_decision. Defined.

(** Object identity. *)
Abbreviation loc := positive.

(** Line feed and tab, as they occur inside the template literals. *)
Definition LF : string := String (Ascii.ascii_of_nat 10) "".
Definition TAB : string := String (Ascii.ascii_of_nat 9) "".

Fixpoint tabs (n : nat) : string :=
  match n with
  | O => ""
  | S n' => TAB +:+ tabs n'
  end.

(** [new CompiledQuery(sql, params)]: the SQL text and the bound values. *)
Record CompiledQuery : Type := mkCompiledQuery {
  sql : string;
  params : list Value
}.

(** A template object holds the literal chunks of a template literal:
    one more chunk than there are substitutions, hence at least one. *)
Record TemplateStringsArray : Type := mkStrings {
  strings_first : string;
  strings_rest : list string
}.

(** ** [src/Query.ts] *)

Module Query.

(** [new QueryParam(x)], read back through [.param]. *)
Record QueryParam : Type := mkQueryParam { param : Value }.

(** [class Query]: one [readonly] field holding a reference to the array
    that was handed to the constructor (the constructor does not copy). *)
Record Query : Type := mkQuery { parts : loc }.

(** [type QueryPart = string|QueryParam|Query]. *)
Inductive QueryPart : Type :=
| PString (s : string)
| PParam (p : QueryParam)
| PQuery (q : Query).

(** The arrays of parts, by location. *)
Abbreviation Store := (gmap loc (list QueryPart)).

(** The [...params] rest argument is [ReadonlyArray<any>]; the code
    separates its elements with [instanceof Query]. *)
Inductive Any : Type :=
| AQuery (q : Query)
| AValue (v : Value).

(** [parts.push(x)] on the array at [a]. *)
Definition push (a : loc) (x : QueryPart) (st : Store) : Store :=
  alter (fun elems => elems ++ [x]) a st.

(** The two branches of the loop body on [params[i - 1]]; an index past
    the end of [params] reads [undefined]. *)
Definition substitution (params : list Any) (i : nat) : QueryPart :=
  match params !! (i - 1)%nat with
  | Some (AQuery q) => PQuery q
  | Some (AValue v) => PParam (mkQueryParam v)
  | None => PParam (mkQueryParam VUndefined)
  end.

(** [for (let i = 1; i < strings.length; i++) { ... }], with [rest] the
    chunks [strings[i]], [strings[i+1]], ... still to visit. *)
Fixpoint template_loop (a : loc) (params : list Any) (i : nat)
    (rest : list string) (st : Store) : Store :=
  match rest with
  | [] => st
  | s :: rest' =>
      let st1 := push a (substitution params i) st in
      let st2 := push a (PString s) st1 in
      template_loop a params (S i) rest' st2
  end.

Definition createFromTemplateString (strings : TemplateStringsArray)
    (params : list Any) (st : Store) : Query * Store :=
  let a := fresh (dom st) in
  let st0 := <[a := [PString (strings_first strings)]]> st in
  (mkQuery a, template_loop a params 1 (strings_rest strings) st0).

(** One iteration of the loop of [compile].  A nested [Query] takes the
    [else] branch, where [sql += part] converts the object to a string. *)
Definition compile_step (indexToPlaceholder : nat -> string)
    (acc : CompiledQuery) (part : QueryPart) : CompiledQuery :=
  match part with
  | PParam p =>
      {| sql := sql acc +:+ indexToPlaceholder (length (params acc));
         params := params acc ++ [param p] |}
  | PString s =>
      {| sql := sql acc +:+ s; params := params acc |}
  | PQuery _ =>
      {| sql := sql acc +:+ "[object Object]"; params := params acc |}
  end.

Definition compile_parts (indexToPlaceholder : nat -> string)
    (elems : list QueryPart) : CompiledQuery :=
  fold_left (compile_step indexToPlaceholder) elems
    {| sql := ""; params := [] |}.

(** [compile] reads [this.parts] and writes only its two locals. *)
Definition compile (this : Query) (indexToPlaceholder : nat -> string)
    (st : Store) : CompiledQuery * Store :=
  (compile_parts indexToPlaceholder (default [] (st !! parts this)), st).

(** *** Shapes of part lists *)

(** The parts pushed by the loop of [createFromTemplateString], as a
    list. *)
Fixpoint pushed (params : list Any) (i : nat) (rest : list string)
    : list QueryPart :=
  match rest with
  | [] => []
  | s :: rest' => substitution params i :: PString s :: pushed params (S i) rest'
  end.

(** No part is a nested fragment. *)
Definition flat (elems : list QueryPart) : bool :=
  forallb (fun p => match p with PQuery _ => false | _ => true end) elems.

Definition is_literal (p : QueryPart) : bool :=
  match p with PString _ => true | _ => false end.

(** A literal, then any number of (non-literal, literal) pairs. *)
Fixpoint pairs_alternate (elems : list QueryPart) : bool :=
  match elems with
  | [] => true
  | x :: y :: rest => negb (is_literal x) && is_literal y && pairs_alternate rest
  | _ => false
  end.

Definition alternates (elems : list QueryPart) : bool :=
  match elems with
  | x :: rest => is_literal x && pairs_alternate rest
  | [] => false
  end.

Definition literal_count (elems : list QueryPart) : nat :=
  length (List.filter is_literal elems).

Definition substitution_count (elems : list QueryPart) : nat :=
  length (List.filter (fun p => negb (is_literal p)) elems).

(** Bound parameters of the fragment rooted at an array, following nested
    fragments; [depth] bounds the nesting that is followed. *)
Fixpoint tree_params (depth : nat) (st : Store) (elems : list QueryPart)
    : list Value :=
  match depth with
  | O => []
  | S d =>
      flat_map (fun p =>
        match p with
        | PString _ => []
        | PParam qp => [param qp]
        | PQuery q => tree_params d st (default [] (st !! parts q))
        end) elems
  end.

End Query.


(** ** Fragments used by the repository

    [CrudRepository] imports [SqlQuery] and [QueryIdentifier] from
    [../Queries/], which are not among the sources.  They follow the
    specification's description of fragments (sections 3, 4.1 and 4.2). *)

Module Queries.

(** Modelled from the spec: the class [SqlQuery] of [../Queries/SqlQuery] is
    missing; a fragment is an ordered sequence of parts, each part one of
    literal string, parameter value, identifier marker, nested fragment. *)
Inductive SqlQuery : Type :=
| mkSqlQuery (parts : list QueryPart)
with QueryPart : Type :=
| PString (s : string)
| PParam (v : Value)
| PIdentifier (name : string)
| PQuery (q : SqlQuery).

Definition parts (q : SqlQuery) : list QueryPart :=
  match q with mkSqlQuery ps => ps end.

(** Modelled from the spec: the class [QueryIdentifier] of
    [../Queries/QueryIdentifier] is missing; the identifier wrapper produces
    a fragment whose single part is tagged render-as-identifier. *)
Definition QueryIdentifier (name : string) : SqlQuery :=
  mkSqlQuery [PIdentifier name].

(** Modelled from the spec: what can stand in a [${...}] of a template, a
    fragment (an identifier wrapper is one) or a value. *)
Inductive Any : Type :=
| AQuery (q : SqlQuery)
| AValue (v : Value).

(** [${x}] for an optional fragment [x]: an omitted option is [undefined]. *)
Definition optional (x : option SqlQuery) : Any :=
  match x with
  | Some q => AQuery q
  | None => AValue VUndefined
  end.

(** Modelled from the spec: parameters that are themselves fragments are
    spliced in as nested fragments, the others are bound as values. *)
Definition substitution (params : list Any) (i : nat) : QueryPart :=
  match params !! (i - 1)%nat with
  | Some (AQuery q) => PQuery q
  | Some (AValue v) => PParam v
  | None => PParam VUndefined
  end.

(** Modelled from the spec: the alternation of substitutions and literal
    chunks after the first chunk. *)
Fixpoint template_parts (params : list Any) (i : nat) (rest : list string)
    : list QueryPart :=
  match rest with
  | [] => []
  | s :: rest' =>
      substitution params i :: PString s :: template_parts params (S i) rest'
  end.

(** Modelled from the spec: [SqlQuery.createFromTemplateString] is missing;
    it constructs a fragment from a literal-string/parameter alternating
    sequence. *)
Definition createFromTemplateString (strings : TemplateStringsArray)
    (params : list Any) : SqlQuery :=
  mkSqlQuery
    (PString (strings_first strings)
       :: template_parts params 1 (strings_rest strings)).

(** Modelled from the spec: [SqlQuery.join] is missing; it concatenates a
    sequence of fragments with a separator fragment between each,
    preserving structure. *)
Fixpoint join_parts (queries : list SqlQuery) (separator : SqlQuery)
    : list QueryPart :=
  match queries with
  | [] => []
  | [q] => [PQuery q]
  | q :: rest => PQuery q :: PQuery separator :: join_parts rest separator
  end.

(** Modelled from the spec: [SqlQuery.join], on the parts above. *)
Definition join (queries : list SqlQuery) (separator : SqlQuery) : SqlQuery :=
  mkSqlQuery (join_parts queries separator).

(** Modelled from the spec: [SqlQuery.compile] is missing; traversal is
    depth-first, left-to-right, identifier markers are rendered inline by
    the collaborator's [formatIdentifier], ordinary parameters are appended
    to the value list and replaced by the placeholder for their position in
    the final flat list. *)
Fixpoint compile_into (indexToPlaceholder : nat -> string)
    (formatIdentifier : string -> string) (q : SqlQuery)
    (acc : CompiledQuery) : CompiledQuery :=
  match q with
  | mkSqlQuery ps =>
      fold_left
        (fun acc p => compile_part indexToPlaceholder formatIdentifier p acc)
        ps acc
  end
with compile_part (indexToPlaceholder : nat -> string)
    (formatIdentifier : string -> string) (p : QueryPart)
    (acc : CompiledQuery) : CompiledQuery :=
  match p with
  | PString s => {| sql := sql acc +:+ s; params := params acc |}
  | PParam v =>
      {| sql := sql acc +:+ indexToPlaceholder (length (params acc));
         params := params acc ++ [v] |}
  | PIdentifier name =>
      {| sql := sql acc +:+ formatIdentifier name; params := params acc |}
  | PQuery q' => compile_into indexToPlaceholder formatIdentifier q' acc
  end.

(** Modelled from the spec: [SqlQuery.compile], from an empty string and an
    empty value list. *)
Definition compile (q : SqlQuery) (indexToPlaceholder : nat -> string)
    (formatIdentifier : string -> string) : CompiledQuery :=
  compile_into indexToPlaceholder formatIdentifier q
    {| sql := ""; params := [] |}.

(** [inner] occurs in [q] as a nested fragment, at any depth. *)
Fixpoint SqlQuery_eqb (a b : SqlQuery) : bool :=
  match a, b with
  | mkSqlQuery ps, mkSqlQuery qs =>
      (fix parts_eqb (ps qs : list QueryPart) : bool :=
         match ps, qs with
         | [], [] => true
         | p :: ps', q :: qs' => QueryPart_eqb p q && parts_eqb ps' qs'
         | _, _ => false
         end) ps qs
  end
with QueryPart_eqb (p q : QueryPart) : bool :=
  match p, q with
  | PString s, PString t => bool_decide (s = t)
  | PParam v, PParam w => bool_decide (v = w)
  | PIdentifier n, PIdentifier m => bool_decide (n = m)
  | PQuery a, PQuery b => SqlQuery_eqb a b
  | _, _ => false
  end.

Fixpoint nested_in (inner : SqlQuery) (q : SqlQuery) : bool :=
  match q with
  | mkSqlQuery ps => existsb (part_holds inner) ps
  end
with part_holds (inner : SqlQuery) (p : QueryPart) : bool :=
  match p with
  | PQuery q' => SqlQuery_eqb inner q' || nested_in inner q'
  | _ => false
  end.

(** *** What a compiled fragment must hold

    The values bound in a fragment, depth-first and left to right, and its
    SQL text when the values bound before it number [n]. *)
Fixpoint bound (q : SqlQuery) : list Value :=
  match q with
  | mkSqlQuery ps => flat_map bound_part ps
  end
with bound_part (p : QueryPart) : list Value :=
  match p with
  | PParam v => [v]
  | PQuery q' => bound q'
  | _ => []
  end.

Fixpoint text (indexToPlaceholder : nat -> string)
    (formatIdentifier : string -> string) (q : SqlQuery) (n : nat) : string :=
  match q with
  | mkSqlQuery ps =>
      (fix text_of (ps : list QueryPart) (n : nat) : string :=
         match ps with
         | [] => ""
         | p :: rest =>
             text_part indexToPlaceholder formatIdentifier p n
               +:+ text_of rest (n + length (bound_part p))%nat
         end) ps n
  end
with text_part (indexToPlaceholder : nat -> string)
    (formatIdentifier : string -> string) (p : QueryPart) (n : nat) : string :=
  match p with
  | PString s => s
  | PParam _ => indexToPlaceholder n
  | PIdentifier name => formatIdentifier name
  | PQuery q' => text indexToPlaceholder formatIdentifier q' n
  end.

Fixpoint text_parts (indexToPlaceholder : nat -> string)
    (formatIdentifier : string -> string) (ps : list QueryPart) (n : nat)
    : string :=
  match ps with
  | [] => ""
  | p :: rest =>
      text_part indexToPlaceholder formatIdentifier p n
        +:+ text_parts indexToPlaceholder formatIdentifier rest
              (n + length (bound_part p))%nat
  end.

(** An accumulator extended by a text, numbered from the values it already
    holds, and by the values bound in that text. *)
Definition extended (acc : CompiledQuery) (t : nat -> string) (b : list Value)
    : CompiledQuery :=
  {| sql := sql acc +:+ t (length (params acc)); params := params acc ++ b |}.

(** Induction over fragments and their parts together. *)
Section NestedInduction.
Variables (P : SqlQuery -> Prop) (Q : QueryPart -> Prop).
Hypothesis on_query : forall ps, Forall Q ps -> P (mkSqlQuery ps).
Hypothesis on_string : forall s, Q (PString s).
Hypothesis on_param : forall v, Q (PParam v).
Hypothesis on_identifier : forall name, Q (PIdentifier name).
Hypothesis on_nested : forall q, P q -> Q (PQuery q).

Fixpoint SqlQuery_nested_ind (q : SqlQuery) : P q :=
  match q with
  | mkSqlQuery ps =>
      on_query ps
        ((fix all (ps : list QueryPart) : Forall Q ps :=
            match ps with
            | [] => @List.Forall_nil _ Q
            | p :: rest => @List.Forall_cons _ Q p rest (QueryPart_nested_ind p) (all rest)
            end) ps)
  end
with QueryPart_nested_ind (p : QueryPart) : Q p :=
  match p with
  | PString s => on_string s
  | PParam v => on_param v
  | PIdentifier name => on_identifier name
  | PQuery q => on_nested q (SqlQuery_nested_ind q)
  end.
End NestedInduction.

End Queries.


(** ** [CrudRepository]

    Everything the two versions share is defined once; [search], [create]
    and [update] differ and are given per version in [Upstream] and
    [Fork]. *)

Module CrudRepository.
Import Queries.

(** [const sql = SqlQuery.createFromTemplateString], applied as a tag:
    [sql first [chunk1; chunk2; ...] [p1; p2; ...]] stands for
    [sql`first${p1}chunk1${p2}chunk2...`]. *)
Definition sql (first : string) (rest : list string) (params : list Any)
    : SqlQuery :=
  createFromTemplateString (mkStrings first rest) params.

(** A line break followed by [n] tabs and [s], as in the indented
    multi-line templates. *)
Definition line (n : nat) (s : string) : string := LF +:+ tabs n +:+ s.

(** *** Objects

    The own enumerable properties of an object, in enumeration order.
    Properties are data properties: accessors and frozen objects are not
    represented, and keys that look like array indices are kept in insertion
    order like the others. *)
Definition Props : Type := list (string * Value).

Fixpoint prop_get (k : string) (o : Props) : option Value :=
  match o with
  | [] => None
  | (k', v) :: rest => if decide (k = k') then Some v else prop_get k rest
  end.

(** [o[k] = v]: an existing property keeps its place, a new one goes last. *)
Fixpoint prop_set (k : string) (v : Value) (o : Props) : Props :=
  match o with
  | [] => [(k, v)]
  | (k', v') :: rest =>
      if decide (k = k') then (k, v) :: rest else (k', v') :: prop_set k v rest
  end.

Definition assign_props (target source : Props) : Props :=
  fold_left (fun t kv => prop_set kv.1 kv.2 t) source target.

Record JsObject : Type := mkObject {
  proto : option loc;
  own : Props
}.

(** Rows are mappings from column name to value. *)
Definition Row : Type := Props.

(** An element of the array resolved by [insertAndGet]: an id or a row. *)
Inductive Data : Type :=
| DValue (v : Value)
| DRow (row : Row).

(** The second argument of [Object.assign] at its call sites: a row, a
    model object, or a primitive. *)
Inductive Assignable : Type :=
| FromRow (row : Row)
| FromObject (l : loc)
| FromPrimitive (v : Value).

Definition assignable_of_data (d : Data) : Assignable :=
  match d with
  | DValue v => FromPrimitive v
  | DRow r => FromRow r
  end.

(** [results[0]]. *)
Definition first_row (results : list Row) : Assignable :=
  match results with
  | r :: _ => FromRow r
  | [] => FromPrimitive VUndefined
  end.

(** The characters of a string primitive are its own enumerable
    properties, keyed by their index. *)
Fixpoint string_entries (i : nat) (s : string) : Props :=
  match s with
  | EmptyString => []
  | String c s' => (pretty i, VString (String c EmptyString)) :: string_entries (S i) s'
  end.

(** String conversion inside a template literal, [`${v}`]. *)
Definition to_string (v : Value) : string :=
  match v with
  | VUndefined => "undefined"
  | VNull => "null"
  | VBoolean true => "true"
  | VBoolean false => "false"
  | VNumber n => pretty n
  | VString s => s
  end.

(** *** The database collaborator and the effects of a call *)

Inductive Call : Type :=
| CQuery (q : SqlQuery)
| CInsertAndGet (q : SqlQuery)
| CUpdateAndGet (q : SqlQuery).

(** What a method can throw: the two errors of the repository, or whatever
    the driver rejected with, passed through. *)
Inductive Thrown : Type :=
| NotFoundError (message : string)
| TooManyResultsError (message : string)
| Rejected (reason : string).

(** [DatabaseInterface] is a collaborator.  Each method answers from the
    statement it is given and from the calls made before it (which is how a
    stateful driver, or a stub, is described); [inl] is a rejected
    promise. *)
Record DatabaseInterface : Type := mkDatabase {
  query : list Call -> SqlQuery -> string + list Row;
  insertAndGet : list Call -> SqlQuery -> string + list Data;
  updateAndGet : list Call -> SqlQuery -> string + option (list Row)
}.

Record World : Type := mkWorld {
  heap : gmap loc JsObject;
  issued : list Call
}.

Definition M (A : Type) : Type := World -> (Thrown + A) * World.

Definition ret {A : Type} (a : A) : M A := fun w => (inr a, w).

Definition bind {A B : Type} (m : M A) (k : A -> M B) : M B :=
  fun w =>
    match m w with
    | (inr a, w') => k a w'
    | (inl e, w') => (inl e, w')
    end.

Definition throw {A : Type} (e : Thrown) : M A := fun w => (inl e, w).

Notation "'let*' x ':=' c1 'in' c2" := (bind c1 (fun x => c2))
  (at level 10, x pattern, c1 at level 100, c2 at level 200).

Definition answer {A : Type} (c : Call) (r : string + A) : M A :=
  fun w =>
    let w' := {| heap := heap w; issued := issued w ++ [c] |} in
    match r with
    | inl reason => (inl (Rejected reason), w')
    | inr a => (inr a, w')
    end.

Definition await_query (db : DatabaseInterface) (q : SqlQuery) : M (list Row) :=
  fun w => answer (CQuery q) (query db (issued w) q) w.

Definition await_insertAndGet (db : DatabaseInterface) (q : SqlQuery)
    : M (list Data) :=
  fun w => answer (CInsertAndGet q) (insertAndGet db (issued w) q) w.

Definition await_updateAndGet (db : DatabaseInterface) (q : SqlQuery)
    : M (option (list Row)) :=
  fun w => answer (CUpdateAndGet q) (updateAndGet db (issued w) q) w.

(** Modelled from the spec: [DatabaseInterface.sequence] is missing; it is
    an opaque serialization boundary around the callback, which receives a
    database handle.  The callback is run once, on the same handle. *)
Definition sequence {A : Type} (db : DatabaseInterface)
    (callback : DatabaseInterface -> M A) : M A :=
  callback db.

(** [o[k]]: an own property, or else the prototype chain. *)
Fixpoint get_property_in (fuel : nat) (h : gmap loc JsObject) (l : loc)
    (k : string) : Value :=
  match fuel with
  | O => VUndefined
  | S fuel' =>
      match h !! l with
      | None => VUndefined
      | Some o =>
          match prop_get k (own o) with
          | Some v => v
          | None =>
              match proto o with
              | Some p => get_property_in fuel' h p k
              | None => VUndefined
              end
          end
      end
  end.

Definition get_property (h : gmap loc JsObject) (l : loc) (k : string) : Value :=
  get_property_in (size h) h l k.

Definition read (model : loc) (k : string) : M Value :=
  fun w => (inr (get_property (heap w) model k), w).

Definition own_enumerable (h : gmap loc JsObject) (source : Assignable) : Props :=
  match source with
  | FromRow r => r
  | FromObject l =>
      match h !! l with
      | Some o => own o
      | None => []
      end
  | FromPrimitive (VString s) => string_entries 0 s
  | FromPrimitive _ => []
  end.

(** [Object.create(p)]: a new object, with prototype [p] and no property. *)
Definition Object_create (p : loc) : M loc :=
  fun w =>
    let l := fresh (dom (heap w)) in
    (inr l, {| heap := <[l := {| proto := Some p; own := [] |}]> (heap w);
               issued := issued w |}).

(** [Object.assign(target, source)]: writes the object at [target]. *)
Definition Object_assign (target : loc) (source : Assignable) : M unit :=
  fun w =>
    let fields := own_enumerable (heap w) source in
    (inr tt,
     {| heap := alter (fun o => {| proto := proto o;
                                   own := assign_props (own o) fields |})
                      target (heap w);
        issued := issued w |}).

(** *** The repository *)

Record CrudRepository : Type := mkRepository {
  database : DatabaseInterface;
  table : string;
  primaryKey : string;
  (** [this.model.prototype]; the constructor itself is never called. *)
  model : loc;
  scope : option SqlQuery
}.

(** The messages of the errors, with [value] converted as a template
    literal converts it. *)
Definition not_found_for (this : CrudRepository) (value : Value) : string :=
  "Object not found in table " +:+ table this +:+ " for "
    +:+ primaryKey this +:+ " = " +:+ to_string value.

Definition multiple_found_for (this : CrudRepository) (value : Value) : string :=
  "Multiple objects found in table " +:+ table this +:+ " for "
    +:+ primaryKey this +:+ " = " +:+ to_string value.

Definition not_found_after (this : CrudRepository) (operation : string)
    (value : Value) : string :=
  "Object not found in table " +:+ table this +:+ " after " +:+ operation
    +:+ " (got " +:+ primaryKey this +:+ " = " +:+ to_string value +:+ ")".

Definition createModelFromAttributes (this : CrudRepository)
    (attributes : Assignable) : M loc :=
  let* model := Object_create (model this) in
  let* _ := Object_assign model attributes in
  ret model.

(** [sql`${new QueryIdentifier(this.primaryKey)} = ${primaryKeyValue}`]. *)
Definition primary_key_filter (this : CrudRepository) (primaryKeyValue : Value)
    : SqlQuery :=
  sql "" [" = "; ""]
    [AQuery (QueryIdentifier (primaryKey this)); AValue primaryKeyValue].

Definition get_filters (this : CrudRepository) (primaryKeyValue : Value)
    : list SqlQuery :=
  [primary_key_filter this primaryKeyValue]
    ++ match scope this with
       | Some s => [sql "(" [")"] [AQuery s]]
       | None => []
       end.

(** [x ? sql`KEYWORD ${x}` : sql``]; the postfix clause has no keyword. *)
Definition optionalClause (keyword : string) (x : option SqlQuery) : SqlQuery :=
  match x with
  | Some q => sql keyword [""] [AQuery q]
  | None => sql "" [] []
  end.

Definition selectClause (select : option SqlQuery) : SqlQuery :=
  match select with
  | Some s => sql "" [""] [AQuery s]
  | None => sql "*" [] []
  end.

Definition get_statement (this : CrudRepository) (primaryKeyValue : Value)
    (postfix select : option SqlQuery) : SqlQuery :=
  let filters := get_filters this primaryKeyValue in
  let postfixClause := optionalClause "" postfix in
  sql (line 3 "SELECT ")
    [line 3 "FROM "; line 3 "WHERE "; line 3 ""; ";" +:+ line 2 ""]
    [AQuery (selectClause select);
     AQuery (QueryIdentifier (table this));
     AQuery (join filters (sql " AND " [] []));
     AQuery postfixClause].

Definition get (this : CrudRepository) (primaryKeyValue : Value)
    (postfix select : option SqlQuery) : M loc :=
  let* results :=
    await_query (database this)
      (get_statement this primaryKeyValue postfix select) in
  if Nat.eqb (length results) 0 then
    throw (NotFoundError (not_found_for this primaryKeyValue))
  else if Nat.ltb 1 (length results) then
    throw (TooManyResultsError (multiple_found_for this primaryKeyValue))
  else
    createModelFromAttributes this (first_row results).

(** [results.map(result => this.createModelFromAttributes(result))]. *)
Fixpoint map_models (this : CrudRepository) (results : list Row)
    : M (list loc) :=
  match results with
  | [] => ret []
  | r :: rest =>
      let* m := createModelFromAttributes this (FromRow r) in
      let* ms := map_models this rest in
      ret (m :: ms)
  end.

(** The filters of [search]: the scope first, then the [where] option. *)
Definition search_filters (this : CrudRepository) (where_ : option SqlQuery)
    : list SqlQuery :=
  match scope this with
  | Some s => [sql "(" [")"] [AQuery s]]
  | None => []
  end
  ++ match where_ with
     | Some w => [sql "(" [")"] [AQuery w]]
     | None => []
     end.

Definition whereClause (filters : list SqlQuery) : SqlQuery :=
  if negb (Nat.eqb (length filters) 0)
  then sql "WHERE " [""] [AQuery (join filters (sql " AND " [] []))]
  else sql "" [] [].

(** [SELECT * FROM table WHERE primaryKey = value;], issued after an insert
    and after an update whose match count is unknown. *)
Definition select_by_primary_key (this : CrudRepository) (value : Value)
    : SqlQuery :=
  sql (line 5 "SELECT *" +:+ line 5 "FROM ")
    [line 5 "WHERE "; " = "; ";" +:+ line 4 ""]
    [AQuery (QueryIdentifier (table this));
     AQuery (QueryIdentifier (primaryKey this));
     AValue value].

(** [entries.map(([key, _]) => sql`${new QueryIdentifier(key)}`)] and
    [entries.map(([_, val]) => sql`${val}`)], for
    [entries = Object.entries(attributes)]. *)
Definition fields (entries : Props) : list SqlQuery :=
  map (fun kv : string * Value => sql "" [""] [AQuery (QueryIdentifier kv.1)])
      entries.

Definition values (entries : Props) : list SqlQuery :=
  map (fun kv : string * Value => sql "" [""] [AValue kv.2]) entries.

Definition insert_statement (this : CrudRepository) (attributes : Props)
    : SqlQuery :=
  let entries := attributes in
  sql (line 4 "INSERT INTO ")
    [" ("; ")" +:+ line 4 "VALUES ("; ")" +:+ line 3 ""]
    [AQuery (QueryIdentifier (table this));
     AQuery (join (fields entries) (sql ", " [] []));
     AQuery (join (values entries) (sql ", " [] []))].

(** [Object.entries(attributes).map(([key, value]) =>
    sql`${new QueryIdentifier(key)} = ${value}`)]. *)
Definition fieldQueries (attributes : Props) : list SqlQuery :=
  map (fun kv : string * Value =>
         sql "" [" = "; ""] [AQuery (QueryIdentifier kv.1); AValue kv.2])
      attributes.

Definition update_statement (this : CrudRepository) (key : Value)
    (attributes : Props) : SqlQuery :=
  sql (line 4 "UPDATE ")
    [line 4 "SET "; line 4 "WHERE "; " = "; line 3 ""]
    [AQuery (QueryIdentifier (table this));
     AQuery (join (fieldQueries attributes) (sql ", " [] []));
     AQuery (QueryIdentifier (primaryKey this));
     AValue key].

Definition delete_statement (this : CrudRepository) (key : Value) : SqlQuery :=
  sql (line 3 "DELETE FROM ")
    [line 3 "WHERE "; " = "; ";" +:+ line 2 ""]
    [AQuery (QueryIdentifier (table this));
     AQuery (QueryIdentifier (primaryKey this));
     AValue key].

(** [typeof data === 'string' || typeof data === 'number']. *)
Definition is_scalar (data : Data) : option Value :=
  match data with
  | DValue (VString s) => Some (VString s)
  | DValue (VNumber n) => Some (VNumber n)
  | _ => None
  end.

(** Truthiness, for [data || attributes]. *)
Definition truthy (data : Data) : bool :=
  match data with
  | DRow _ => true
  | DValue VUndefined => false
  | DValue VNull => false
  | DValue (VBoolean b) => b
  | DValue (VNumber n) => negb (Z.eqb n 0)
  | DValue (VString s) => negb (bool_decide (s = ""))
  end.

(** [(await sequenceDb.insertAndGet(...))[0]]. *)
Definition first_data (inserted : list Data) : Data :=
  match inserted with
  | d :: _ => d
  | [] => DValue VUndefined
  end.

(** The [if] branch of [create], shared by both versions. *)
Definition fetch_inserted (this : CrudRepository) (sequenceDb : DatabaseInterface)
    (data : Value) : M loc :=
  let* results := await_query sequenceDb (select_by_primary_key this data) in
  if Nat.eqb (length results) 0 then
    throw (NotFoundError (not_found_after this "insert" data))
  else
    createModelFromAttributes this (first_row results).

(** The body of [update] up to the final assignment, shared by both
    versions: the UPDATE, the SELECT when the driver answered [null], and
    the checks on the number of rows. *)
Definition updated_rows (this : CrudRepository) (sequenceDb : DatabaseInterface)
    (model : loc) (attributes : Props) : M (list Row) :=
  let* key := read model (primaryKey this) in
  let* answered :=
    await_updateAndGet sequenceDb (update_statement this key attributes) in
  match answered with
  | None =>
      let* key := read model (primaryKey this) in
      let* results := await_query sequenceDb (select_by_primary_key this key) in
      if Nat.eqb (length results) 0 then
        let* key := read model (primaryKey this) in
        throw (NotFoundError (not_found_after this "update" key))
      else ret results
  | Some results =>
      if Nat.eqb (length results) 0 then
        let* key := read model (primaryKey this) in
        throw (NotFoundError (not_found_for this key))
      else if Nat.ltb 1 (length results) then
        let* key := read model (primaryKey this) in
        throw (TooManyResultsError (multiple_found_for this key))
      else ret results
  end.

Definition delete (this : CrudRepository) (model : loc) : M unit :=
  let* key := read model (primaryKey this) in
  let* _ := await_query (database this) (delete_statement this key) in
  ret tt.

(** *** The first version *)

Module Upstream.

Definition search_statement (this : CrudRepository)
    (postfix where_ orderBy select : option SqlQuery) : SqlQuery :=
  let filters := search_filters this where_ in
  sql (line 3 "SELECT ")
    [line 3 "FROM "; " "; line 3 ""; line 3 ""; line 2 ""]
    [AQuery (selectClause select);
     AQuery (QueryIdentifier (table this));
     AQuery (optionalClause "" postfix);
     AQuery (whereClause filters);
     AQuery (optionalClause "ORDER BY " orderBy)].

Definition search (this : CrudRepository)
    (postfix where_ orderBy select : option SqlQuery) : M (list loc) :=
  let* results :=
    await_query (database this)
      (search_statement this postfix where_ orderBy select) in
  map_models this results.

Definition create (this : CrudRepository) (attributes : Props) : M loc :=
  sequence (database this) (fun sequenceDb =>
    let* inserted :=
      await_insertAndGet sequenceDb (insert_statement this attributes) in
    let data := first_data inserted in
    match is_scalar data with
    | Some id => fetch_inserted this sequenceDb id
    | None => createModelFromAttributes this (assignable_of_data data)
    end).

Definition update (this : CrudRepository) (model : loc) (attributes : Props)
    : M loc :=
  sequence (database this) (fun sequenceDb =>
    let* results := updated_rows this sequenceDb model attributes in
    let* newModel := createModelFromAttributes this (FromObject model) in
    let* _ := Object_assign newModel (first_row results) in
    ret newModel).

End Upstream.

(** *** The second version *)

Module Fork.

Definition fromClause (this : CrudRepository) (from select : option SqlQuery)
    : SqlQuery :=
  match select with
  | Some _ => sql "" [""] [optional from]
  | None => sql "" [""] [AQuery (QueryIdentifier (table this))]
  end.

Definition search_statement (this : CrudRepository)
    (from postfix where_ groupBy orderBy select : option SqlQuery) : SqlQuery :=
  let filters := search_filters this where_ in
  sql (line 3 "SELECT ")
    [line 3 "FROM "; " "; line 3 ""; line 3 ""; line 3 ""; line 2 ""]
    [AQuery (selectClause select);
     AQuery (fromClause this from select);
     AQuery (optionalClause "" postfix);
     AQuery (whereClause filters);
     AQuery (optionalClause "GROUP BY " groupBy);
     AQuery (optionalClause "ORDER BY " orderBy)].

Definition search (this : CrudRepository)
    (from postfix where_ groupBy orderBy select : option SqlQuery)
    : M (list loc) :=
  let* results :=
    await_query (database this)
      (search_statement this from postfix where_ groupBy orderBy select) in
  map_models this results.

Definition create (this : CrudRepository) (attributes : Props) : M loc :=
  sequence (database this) (fun sequenceDb =>
    let* inserted :=
      await_insertAndGet sequenceDb (insert_statement this attributes) in
    let data := first_data inserted in
    match is_scalar data with
    | Some id => fetch_inserted this sequenceDb id
    | None =>
        createModelFromAttributes this
          (if truthy data then assignable_of_data data else FromRow attributes)
    end).

Definition update (this : CrudRepository) (model : loc) (attributes : Props)
    : M loc :=
  sequence (database this) (fun sequenceDb =>
    let* results := updated_rows this sequenceDb model attributes in
    let* _ := Object_assign model (first_row results) in
    ret model).

End Fork.

End CrudRepository.


(** ** Concrete fragments, repositories and stub drivers *)

Module Examples.

(** Placeholders [$0], [$1], ... and double-quoted identifiers. *)
Definition dollar (i : nat) : string := "$" +:+ pretty i.

Definition quoted (identifier : string) : string :=
  String (Ascii.ascii_of_nat 34) identifier
    +:+ String (Ascii.ascii_of_nat 34) "".

(** [const inner = sql`id = ${1}`] and then
    [sql`SELECT * FROM t WHERE ${inner}`], built in an empty store. *)
Definition inner_built : Query.Query * gmap loc (list Query.QueryPart) :=
  Query.createFromTemplateString (mkStrings "id = " [""])
    [Query.AValue (VNumber 1)] ∅.

Definition outer_built : Query.Query * gmap loc (list Query.QueryPart) :=
  Query.createFromTemplateString (mkStrings "SELECT * FROM t WHERE " [""])
    [Query.AQuery inner_built.1] inner_built.2.

Import Queries CrudRepository.

(** A driver that gives the same answers whatever it is asked. *)
Definition stub (selected : list Row) (inserted : list Data)
    (updated : option (list Row)) : DatabaseInterface :=
  {| query := fun _ _ => inr selected;
     insertAndGet := fun _ _ => inr inserted;
     updateAndGet := fun _ _ => inr updated |}.

(** [sql`deleted = ${false}`], a soft-delete scope. *)
Definition not_deleted : SqlQuery :=
  CrudRepository.sql "deleted = " [""] [AValue (VBoolean false)].

Definition users (db : DatabaseInterface) (scope : option SqlQuery)
    : CrudRepository :=
  {| database := db; table := "users"; primaryKey := "id";
     model := 1%positive; scope := scope |}.

(** The users whose rows are not soft-deleted; the driver answers every
    UPDATE with the one row it changed. *)
Definition scoped_users : CrudRepository :=
  users (stub [] [] (Some [[("id", VNumber 7); ("name", VString "Bob")]]))
    (Some not_deleted).

Definition ann : Row := [("id", VNumber 7); ("name", VString "Ann")].
Definition bob : Row := [("id", VNumber 8); ("name", VString "Bob")].

(** A heap holding the prototype of the model class at [1] and one model,
    Ann with [id = 7], at [2]; nothing has been sent to the database. *)
Definition world0 : World :=
  {| heap := <[2%positive := {| proto := Some 1%positive; own := ann |}]>
               (<[1%positive := {| proto := None; own := [] |}]> ∅);
     issued := [] |}.

End Examples.

(** ** What the statements and the templates must read like *)

Module Renderings.

(** The text of a template whose holes are all bound values: after the
    first chunk, a placeholder and a chunk per hole, the placeholders
    numbered from [i]. *)
Fixpoint interleaved (f : nat -> string) (i : nat) (rest : list string)
    : string :=
  match rest with
  | [] => ""
  | s :: rest' => f i +:+ s +:+ interleaved f (S i) rest'
  end.

(** The values of [n] holes: the arguments in order, [undefined] where the
    arguments run out. *)
Definition hole_values (values : list Value) (n : nat) : list Value :=
  map (fun i => default VUndefined (values !! i)) (seq 0 n).

(** What hole [i] of a [Query] template contributes to the parameters of
    [Query.compile]: its value, or nothing when the argument is a
    fragment. *)
Definition hole_param (params : list Query.Any) (i : nat) : list Value :=
  match params !! i with
  | Some (Query.AQuery _) => []
  | Some (Query.AValue v) => [v]
  | None => [VUndefined]
  end.

Import Queries CrudRepository.

(** [column = placeholder] for each attribute, separated by [, ], the
    placeholders numbered from [n]. *)
Fixpoint assignments_text (ph : nat -> string) (fmt : string -> string)
    (n : nat) (attributes : Props) : string :=
  match attributes with
  | [] => ""
  | [kv] => fmt kv.1 +:+ " = " +:+ ph n
  | kv :: rest =>
      fmt kv.1 +:+ " = " +:+ ph n +:+ ", "
        +:+ assignments_text ph fmt (S n) rest
  end.

(** The columns, and the placeholders numbered from [n], separated by
    [, ]. *)
Fixpoint columns_text (fmt : string -> string) (attributes : Props) : string :=
  match attributes with
  | [] => ""
  | [kv] => fmt kv.1
  | kv :: rest => fmt kv.1 +:+ ", " +:+ columns_text fmt rest
  end.

Fixpoint placeholders_text (ph : nat -> string) (n : nat) (attributes : Props)
    : string :=
  match attributes with
  | [] => ""
  | [kv] => ph n
  | kv :: rest => ph n +:+ ", " +:+ placeholders_text ph (S n) rest
  end.

(** The WHERE clause of [search]: nothing without filter, else the keyword
    and the parenthesised filters joined by AND, the scope first. *)
Definition where_text (ph : nat -> string) (fmt : string -> string)
    (scope where_ : option SqlQuery) (n : nat) : string :=
  match scope, where_ with
  | None, None => ""
  | Some s, None => "WHERE " +:+ "(" +:+ text ph fmt s n +:+ ")"
  | None, Some w => "WHERE " +:+ "(" +:+ text ph fmt w n +:+ ")"
  | Some s, Some w =>
      "WHERE " +:+ "(" +:+ text ph fmt s n +:+ ")" +:+ " AND "
        +:+ "(" +:+ text ph fmt w (n + length (bound s)) +:+ ")"
  end.

(** The own property [k] of the object at [l]. *)
Definition own_property (h : gmap loc JsObject) (l : loc) (k : string)
    : option Value :=
  match h !! l with
  | Some o => prop_get k (own o)
  | None => None
  end.

(** A driver whose every call is rejected. *)
Definition rejecting (reason : string) : DatabaseInterface :=
  {| query := fun _ _ => inl reason;
     insertAndGet := fun _ _ => inl reason;
     updateAndGet := fun _ _ => inl reason |}.

(** A driver that accepts the INSERT and the UPDATE and rejects every
    SELECT. *)
Definition select_rejecting (reason : string) (inserted : list Data)
    : DatabaseInterface :=
  {| query := fun _ _ => inl reason;
     insertAndGet := fun _ _ => inr inserted;
     updateAndGet := fun _ _ => inr None |}.

End Renderings.

(** * Properties *)

(** ** [Query]: templates and compilation *)

Module QueryFacts.
Import Query.

Lemma push_insert (a : loc) (x : QueryPart) (elems : list QueryPart)
    (st : Store) :
  push a x (<[a := elems]> st) = <[a := elems ++ [x]]> st.
Proof. unfold push. by rewrite alter_insert_eq. Qed.

Lemma template_loop_insert (rest : list string) :
  forall (a : loc) (params : list Any) (i : nat) (elems : list QueryPart)
         (st : Store),
    template_loop a params i rest (<[a := elems]> st)
    = <[a := elems ++ pushed params i rest]> st.
Proof.
  induction rest as [|s rest IH]; intros a params i elems st; simpl.
  - by rewrite app_nil_r.
  - rewrite !push_insert, IH. by rewrite <- !app_assoc.
Qed.

Lemma substitution_not_literal (params : list Any) (i : nat) :
  is_literal (substitution params i) = false.
Proof.
  unfold substitution. destruct (params !! (i - 1)) as [[q|v]|]; reflexivity.
Qed.

Lemma pushed_alternate (rest : list string) :
  forall (params : list Any) (i : nat),
    pairs_alternate (pushed params i rest) = true.
Proof.
  induction rest as [|s rest IH]; intros params i; simpl; [reflexivity|].
  by rewrite substitution_not_literal, IH.
Qed.

Lemma pushed_counts (rest : list string) :
  forall (params : list Any) (i : nat),
    literal_count (pushed params i rest) = length rest
    /\ substitution_count (pushed params i rest) = length rest.
Proof.
  unfold literal_count, substitution_count.
  induction rest as [|s rest IH]; intros params i; simpl; [done|].
  rewrite substitution_not_literal. simpl.
  destruct (IH params (S i)) as [-> ->]. done.
Qed.

Lemma createFromTemplateString_store (strings : TemplateStringsArray)
    (params : list Any) (st : Store) :
  let a := fresh (dom st) in
  createFromTemplateString strings params st
  = (mkQuery a,
     <[a := PString (strings_first strings)
              :: pushed params 1 (strings_rest strings)]> st).
Proof.
  unfold createFromTemplateString. simpl.
  by rewrite template_loop_insert.
Qed.

(** The parameters collected by [compile] on a list without nested
    fragments are the bound values, in order. *)
Lemma compile_step_params (f : nat -> string) (elems : list QueryPart) :
  forall acc : CompiledQuery,
    params (fold_left (compile_step f) elems acc)
    = params acc
        ++ flat_map (fun p => match p with PParam qp => [param qp] | _ => [] end)
             elems.
Proof.
  induction elems as [|p elems IH]; intros acc; simpl.
  - by rewrite app_nil_r.
  - rewrite IH. destruct p; simpl; [done| |done].
    by rewrite <- app_assoc.
Qed.

Lemma compile_flat_params (f : nat -> string) (st : Store)
    (elems : list QueryPart) (depth : nat) :
  flat elems = true ->
  params (compile_parts f elems) = tree_params (S depth) st elems.
Proof.
  intros Hflat. unfold compile_parts. rewrite compile_step_params. simpl.
  induction elems as [|p elems IH]; simpl in *; [done|].
  destruct p; simpl in *; try discriminate; rewrite IH; auto.
Qed.

(** C9.  A fragment built by [createFromTemplateString] is a new array that
    starts and ends with a literal and alternates literals with
    substitutions, so that it holds one literal more than substitutions;
    building it leaves every array already in the store as it was, and
    [compile] leaves the whole store as it was. *)
Theorem template_structure_is_kept (strings : TemplateStringsArray)
    (params : list Any) (st : Store) :
  exists elems : list QueryPart,
    let built := createFromTemplateString strings params st in
    st !! parts built.1 = None
    /\ built.2 = <[parts built.1 := elems]> st
    /\ alternates elems = true
    /\ literal_count elems = S (substitution_count elems)
    /\ (exists s, last elems = Some (PString s))
    /\ (forall (strings' : TemplateStringsArray) (params' : list Any),
          (createFromTemplateString strings' params' built.2).2
            !! parts built.1 = Some elems)
    /\ forall (q : Query) (f : nat -> string) (st' : Store),
         (compile q f st').2 = st'.
Proof.
  exists (PString (strings_first strings)
            :: pushed params 1 (strings_rest strings)).
  rewrite createFromTemplateString_store. simpl.
  split; [apply not_elem_of_dom, is_fresh|].
  split; [reflexivity|].
  split; [apply pushed_alternate|].
  split.
  - destruct (pushed_counts (strings_rest strings) params 1) as [Hl Hs].
    unfold literal_count, substitution_count in *. simpl.
    by rewrite Hl, Hs.
  - split; [|split; [|reflexivity]].
    + generalize 1%nat (strings_first strings).
      induction (strings_rest strings) as [|s rest IH]; intros i s0; simpl.
      * by exists s0.
      * destruct (IH (S i) s) as [s' Hs']. exists s'.
        simpl in Hs'. destruct (pushed params (S i) rest); simpl in *; done.
    + intros strings' params'. rewrite template_loop_insert.
      rewrite lookup_insert_ne; [apply lookup_insert_eq|].
      intros Heq.
      pose proof (is_fresh (dom (<[fresh (dom st) :=
          PString (strings_first strings)
            :: pushed params 1 (strings_rest strings)]> st))) as Hfresh.
      rewrite Heq in Hfresh. apply Hfresh.
      rewrite dom_insert_L. apply elem_of_union_l, elem_of_singleton.
      reflexivity.
Qed.

(** C2.  [compile] does not descend into a nested fragment: for
    [sql`SELECT * FROM t WHERE ${sql`id = ${1}`}`] the value [1] bound in
    the nested fragment is missing from the parameter list, and the text
    holds the string conversion of the nested object where its SQL and the
    placeholder [$0] should be. *)
Theorem compile_skips_nested_fragments :
  let inner := Examples.inner_built.1 in
  let outer := Examples.outer_built.1 in
  let st := Examples.outer_built.2 in
  st !! parts outer
  = Some [PString "SELECT * FROM t WHERE "; PQuery inner; PString ""]
  /\ compile inner Examples.dollar st
     = (mkCompiledQuery "id = $0" [VNumber 1], st)
  /\ tree_params 2 st (default [] (st !! parts outer)) = [VNumber 1]
  /\ compile outer Examples.dollar st
     = (mkCompiledQuery "SELECT * FROM t WHERE [object Object]" [], st).
Proof. repeat split; vm_compute; reflexivity. Qed.

End QueryFacts.

(** ** Fragments of the repository: what [compile] produces *)

Module QueriesFacts.
Import Queries.

Lemma append_nil_l (s : string) : "" +:+ s = s.
Proof. reflexivity. Qed.

Lemma append_cons (c : Ascii.ascii) (s t : string) :
  String c s +:+ t = String c (s +:+ t).
Proof. reflexivity. Qed.

Lemma append_nil_r (s : string) : s +:+ "" = s.
Proof.
  induction s as [|c s IH]; [reflexivity|]. by rewrite append_cons, IH.
Qed.

Lemma append_assoc (s t u : string) : (s +:+ t) +:+ u = s +:+ t +:+ u.
Proof.
  induction s as [|c s IH]; [reflexivity|]. by rewrite !append_cons, IH.
Qed.

Lemma text_unfold (ph : nat -> string) (fmt : string -> string)
    (ps : list QueryPart) (n : nat) :
  text ph fmt (mkSqlQuery ps) n = text_parts ph fmt ps n.
Proof.
  revert n. induction ps as [|p ps IH]; intros n; [reflexivity|].
  simpl in *. by rewrite IH.
Qed.

Lemma compile_parts_extended (ph : nat -> string) (fmt : string -> string)
    (ps : list QueryPart) :
  Forall (fun p => forall acc,
            compile_part ph fmt p acc
            = extended acc (text_part ph fmt p) (bound_part p)) ps ->
  forall acc,
    fold_left (fun acc p => compile_part ph fmt p acc) ps acc
    = extended acc (text_parts ph fmt ps) (flat_map bound_part ps).
Proof.
  unfold extended.
  induction 1 as [|p ps Hp _ IH]; intros acc; simpl.
  - rewrite append_nil_r, app_nil_r. by destruct acc.
  - rewrite IH, Hp. simpl.
    by rewrite append_assoc, length_app, <- app_assoc.
Qed.

Lemma compile_into_extended (ph : nat -> string) (fmt : string -> string)
    (q : SqlQuery) :
  forall acc,
    compile_into ph fmt q acc = extended acc (text ph fmt q) (bound q).
Proof.
  induction q using SqlQuery_nested_ind
    with (Q := fun p => forall acc,
                 compile_part ph fmt p acc
                 = extended acc (text_part ph fmt p) (bound_part p)).
  - intros acc. simpl compile_into. rewrite compile_parts_extended by done.
    unfold extended. by rewrite text_unfold.
  - intros acc. unfold extended. simpl. by rewrite app_nil_r.
  - done.
  - intros acc. unfold extended. simpl. by rewrite app_nil_r.
  - intros acc. simpl. apply IHq.
Qed.

(** The compiled fragment holds the bound values in traversal order, and
    each placeholder carries the position of its value in that list. *)
Lemma compile_text_bound (q : SqlQuery) (ph : nat -> string)
    (fmt : string -> string) :
  compile q ph fmt = {| sql := text ph fmt q 0; params := bound q |}.
Proof. unfold compile. by rewrite compile_into_extended. Qed.

End QueriesFacts.

(** ** The repository *)

Module CrudRepositoryFacts.
Import Queries CrudRepository QueriesFacts.

(** *** Objects *)

Lemma prop_set_new (k : string) (v : Value) (o : Props) :
  k ∉ o.*1 -> prop_set k v o = o ++ [(k, v)].
Proof.
  induction o as [|[k' v'] o IH]; simpl; intros Hk; [done|].
  rewrite not_elem_of_cons in Hk. destruct Hk as [Hne Hk].
  destruct (decide (k = k')) as [->|_]; [done|]. by rewrite IH.
Qed.

Lemma assign_props_app (source : Props) :
  forall target : Props,
    NoDup ((target ++ source).*1) ->
    assign_props target source = target ++ source.
Proof.
  unfold assign_props.
  induction source as [|[k v] source IH]; intros target Hnd; simpl.
  - by rewrite app_nil_r.
  - rewrite prop_set_new.
    + rewrite IH; rewrite <- app_assoc; done.
    + rewrite fmap_app in Hnd. apply NoDup_app in Hnd as (_ & Hdisj & _).
      intros Hin. apply (Hdisj k Hin). simpl. left.
Qed.

(** Assigning a row onto an object without properties gives the row. *)
Lemma assign_props_fresh (row : Props) :
  NoDup row.*1 -> assign_props [] row = row.
Proof. intros Hnd. by rewrite assign_props_app. Qed.

(** *** [createModelFromAttributes] *)

Lemma createModelFromAttributes_run (this : CrudRepository)
    (attributes : Assignable) (w : World) :
  let m := fresh (dom (heap w)) in
  let empty := {| proto := Some (model this); own := [] |} in
  createModelFromAttributes this attributes w
  = (inr m,
     {| heap :=
          <[m := {| proto := Some (model this);
                    own := assign_props []
                             (own_enumerable (<[m := empty]> (heap w))
                                attributes) |}]> (heap w);
        issued := issued w |}).
Proof.
  unfold createModelFromAttributes, bind, Object_create, Object_assign, ret.
  simpl. by rewrite alter_insert_eq.
Qed.

Lemma fresh_unused (h : gmap loc JsObject) : h !! fresh (dom h) = None.
Proof. apply not_elem_of_dom, is_fresh. Qed.

(** *** [get] *)

Lemma get_issued (this : CrudRepository) (primaryKeyValue : Value)
    (postfix select : option SqlQuery) (w : World) :
  issued (get this primaryKeyValue postfix select w).2
  = issued w ++ [CQuery (get_statement this primaryKeyValue postfix select)].
Proof.
  unfold get, bind, await_query, answer.
  by destruct (query _ _ _) as [reason|[|r1 [|r2 rest]]].
Qed.

(** C4.  [get] sends one SELECT.  When the driver answers with exactly one
    row, [get] returns a new model object that carries the fields of that
    row; with no row it throws NotFound, and with two rows or more it
    throws TooManyResults, in both cases without creating a model. *)
Theorem get_one_row_or_error (this : CrudRepository) (primaryKeyValue : Value)
    (postfix select : option SqlQuery) (w : World) :
  let statement := get_statement this primaryKeyValue postfix select in
  let answered := query (database this) (issued w) statement in
  let outcome := get this primaryKeyValue postfix select w in
  issued outcome.2 = issued w ++ [CQuery statement]
  /\ (forall row : Row,
        answered = inr [row] -> NoDup row.*1 ->
        exists m : loc,
          outcome.1 = inr m
          /\ heap w !! m = None
          /\ heap outcome.2
             = <[m := {| proto := Some (model this); own := row |}]> (heap w))
  /\ (answered = inr [] ->
        outcome.1 = inl (NotFoundError (not_found_for this primaryKeyValue))
        /\ heap outcome.2 = heap w)
  /\ (forall (r1 r2 : Row) (rest : list Row),
        answered = inr (r1 :: r2 :: rest) ->
        outcome.1
        = inl (TooManyResultsError (multiple_found_for this primaryKeyValue))
        /\ heap outcome.2 = heap w).
Proof.
  intros statement answered outcome. subst outcome.
  unfold get, bind, await_query, answer. fold statement. fold answered.
  split; [|split; [|split]].
  - apply get_issued.
  - intros row -> Hnd. simpl. exists (fresh (dom (heap w))).
    rewrite alter_insert_eq. simpl. rewrite assign_props_fresh by done.
    split; [done|]. split; [apply fresh_unused|done].
  - by intros ->.
  - by intros r1 r2 rest ->.
Qed.

(** *** The statements filtered on the primary key alone *)

Ltac compiled :=
  intros; rewrite compile_text_bound; simpl;
  rewrite ?append_assoc, ?append_nil_r, ?append_nil_l; reflexivity.

Lemma delete_statement_compiled (this : CrudRepository) (key : Value)
    (ph : nat -> string) (fmt : string -> string) :
  compile (delete_statement this key) ph fmt
  = mkCompiledQuery
      (line 3 "DELETE FROM " +:+ fmt (table this)
         +:+ line 3 "WHERE " +:+ fmt (primaryKey this)
         +:+ " = " +:+ ph 0%nat +:+ ";" +:+ line 2 "")
      [key].
Proof. compiled. Qed.

Lemma select_by_primary_key_compiled (this : CrudRepository) (value : Value)
    (ph : nat -> string) (fmt : string -> string) :
  compile (select_by_primary_key this value) ph fmt
  = mkCompiledQuery
      (line 5 "SELECT *" +:+ line 5 "FROM " +:+ fmt (table this)
         +:+ line 5 "WHERE " +:+ fmt (primaryKey this)
         +:+ " = " +:+ ph 0%nat +:+ ";" +:+ line 4 "")
      [value].
Proof. compiled. Qed.

(** *** [delete] *)

Lemma delete_issued (this : CrudRepository) (model : loc)
    (w : World) :
  issued (delete this model w).2
  = issued w
      ++ [CQuery (delete_statement this
                    (get_property (heap w) model (primaryKey this)))].
Proof.
  unfold delete, bind, read, await_query, answer, ret. simpl.
  by destruct (query _ _ _).
Qed.

(** C8.  [delete] sends one statement, the DELETE filtered on the primary
    key of the model, and nothing else; it throws neither NotFound nor
    TooManyResults, and it completes whatever rows the driver answers with,
    none included. *)
Theorem delete_is_unchecked (this : CrudRepository) (model : loc) (w : World) :
  let key := get_property (heap w) model (primaryKey this) in
  let statement := delete_statement this key in
  let outcome := delete this model w in
  issued outcome.2 = issued w ++ [CQuery statement]
  /\ heap outcome.2 = heap w
  /\ (forall ph fmt,
        compile statement ph fmt
        = mkCompiledQuery
            (line 3 "DELETE FROM " +:+ fmt (table this)
               +:+ line 3 "WHERE " +:+ fmt (primaryKey this)
               +:+ " = " +:+ ph 0%nat +:+ ";" +:+ line 2 "")
            [key])
  /\ (forall message, outcome.1 <> inl (NotFoundError message))
  /\ (forall message, outcome.1 <> inl (TooManyResultsError message))
  /\ (forall rows : list Row,
        query (database this) (issued w) statement = inr rows ->
        outcome.1 = inr tt).
Proof.
  intros key statement outcome. subst outcome.
  split; [|split; [|split; [apply delete_statement_compiled|]]].
  all: unfold delete, bind, read, await_query, answer, ret; simpl;
    fold key; fold statement;
    destruct (query (database this) (issued w) statement) as [reason|rows];
    simpl; repeat split; done.
Qed.

(** *** [update] *)

Lemma alter_present (f : JsObject -> JsObject) (h : gmap loc JsObject)
    (l : loc) (o : JsObject) :
  h !! l = Some o -> alter f l h = <[l := f o]> h.
Proof.
  intros Hl. apply map_eq. intros j.
  destruct (decide (l = j)) as [<-|Hne].
  - by rewrite lookup_alter_eq, lookup_insert_eq, Hl.
  - by rewrite lookup_alter_ne, lookup_insert_ne.
Qed.

(** The run of the shared part of [update], by the answers of the driver. *)
Lemma updated_rows_run (this : CrudRepository) (db : DatabaseInterface)
    (model : loc) (attributes : Props) (w : World) :
  let key := get_property (heap w) model (primaryKey this) in
  let statement := update_statement this key attributes in
  let confirm := select_by_primary_key this key in
  let w1 := {| heap := heap w;
               issued := issued w ++ [CUpdateAndGet statement] |} in
  let w2 := {| heap := heap w;
               issued := issued w ++ [CUpdateAndGet statement; CQuery confirm] |} in
  updated_rows this db model attributes w
  = match updateAndGet db (issued w) statement with
    | inl reason => (inl (Rejected reason), w1)
    | inr None =>
        match query db (issued w1) confirm with
        | inl reason => (inl (Rejected reason), w2)
        | inr [] => (inl (NotFoundError (not_found_after this "update" key)), w2)
        | inr (row :: rest) => (inr (row :: rest), w2)
        end
    | inr (Some []) => (inl (NotFoundError (not_found_for this key)), w1)
    | inr (Some [row]) => (inr [row], w1)
    | inr (Some (_ :: _ :: _)) =>
        (inl (TooManyResultsError (multiple_found_for this key)), w1)
    end.
Proof.
  intros key statement confirm w1 w2.
  unfold updated_rows, bind, read, await_updateAndGet, await_query, answer,
    throw, ret.
  simpl. fold key. fold statement. fold confirm.
  destruct (updateAndGet db (issued w) statement)
    as [reason|[[|r1 [|r2 rest]]|]]; simpl; try reflexivity.
  subst w2. rewrite <- app_assoc. simpl. fold key. fold confirm.
  by destruct (query db _ confirm) as [reason|[|row rest]].
Qed.

Lemma updated_rows_success (this : CrudRepository) (db : DatabaseInterface)
    (model : loc) (attributes : Props) (w w' : World) (results : list Row) :
  updated_rows this db model attributes w = (inr results, w') ->
  heap w' = heap w /\ exists row rest, results = row :: rest.
Proof.
  rewrite updated_rows_run.
  destruct (updateAndGet db _ _) as [reason|[[|r1 [|r2 rest]]|]];
    try discriminate.
  - intros Heq. injection Heq as <- <-. eauto.
  - destruct (query db _ _) as [reason|[|row rest]]; try discriminate.
    intros Heq. injection Heq as <- <-. eauto.
Qed.

(** C5.  When [updateAndGet] answers [null], [update] sends the SELECT by
    primary key next and throws NotFound exactly when that SELECT answers
    with no row; when [updateAndGet] answers with rows, [update] throws
    NotFound for no row, TooManyResults for two rows or more, and returns
    the model for exactly one row. *)
Theorem update_checks_the_rows (this : CrudRepository) (model : loc)
    (attributes : Props) (w : World) :
  let db := database this in
  let key := get_property (heap w) model (primaryKey this) in
  let statement := update_statement this key attributes in
  let confirm := select_by_primary_key this key in
  let outcome := Fork.update this model attributes w in
  (updateAndGet db (issued w) statement = inr None ->
     let selected := query db (issued w ++ [CUpdateAndGet statement]) confirm in
     issued outcome.2 = issued w ++ [CUpdateAndGet statement; CQuery confirm]
     /\ (forall ph fmt,
           compile confirm ph fmt
           = mkCompiledQuery
               (line 5 "SELECT *" +:+ line 5 "FROM " +:+ fmt (table this)
                  +:+ line 5 "WHERE " +:+ fmt (primaryKey this)
                  +:+ " = " +:+ ph 0%nat +:+ ";" +:+ line 4 "")
               [key])
     /\ (selected = inr [] <->
         exists message, outcome.1 = inl (NotFoundError message))
     /\ (forall message, outcome.1 <> inl (TooManyResultsError message))
     /\ (forall row rest, selected = inr (row :: rest) -> outcome.1 = inr model))
  /\ (forall rows : list Row,
        updateAndGet db (issued w) statement = inr (Some rows) ->
        issued outcome.2 = issued w ++ [CUpdateAndGet statement]
        /\ (rows = [] ->
            outcome.1 = inl (NotFoundError (not_found_for this key)))
        /\ (forall r1 r2 rest, rows = r1 :: r2 :: rest ->
            outcome.1
            = inl (TooManyResultsError (multiple_found_for this key)))
        /\ (forall row, rows = [row] -> outcome.1 = inr model)).
Proof.
  intros db key statement confirm outcome. subst outcome.
  unfold Fork.update, sequence, bind. rewrite updated_rows_run.
  fold db key statement confirm. split.
  - intros ->. simpl.
    pose proof (select_by_primary_key_compiled this key) as Hconfirm.
    fold confirm in Hconfirm.
    destruct (query db (issued w ++ [CUpdateAndGet statement]) confirm)
      as [reason|[|row rest]]; simpl.
    + repeat split; try done. intros [message [=]].
    + repeat split; try done. by eexists.
    + repeat split; try done. intros [message [=]].
  - intros rows ->.
    destruct rows as [|r1 [|r2 rest]]; simpl; repeat split; done.
Qed.

(** The first version makes the same checks; where the second returns the
    model it was given, it returns a new one. *)
Lemma upstream_update_checks_the_rows (this : CrudRepository) (model : loc)
    (attributes : Props) (w : World) :
  let db := database this in
  let key := get_property (heap w) model (primaryKey this) in
  let statement := update_statement this key attributes in
  let confirm := select_by_primary_key this key in
  let outcome := Upstream.update this model attributes w in
  (updateAndGet db (issued w) statement = inr None ->
     let selected := query db (issued w ++ [CUpdateAndGet statement]) confirm in
     issued outcome.2 = issued w ++ [CUpdateAndGet statement; CQuery confirm]
     /\ (selected = inr [] <->
         exists message, outcome.1 = inl (NotFoundError message))
     /\ (forall message, outcome.1 <> inl (TooManyResultsError message))
     /\ (forall row rest, selected = inr (row :: rest) ->
         exists m, outcome.1 = inr m))
  /\ (forall rows : list Row,
        updateAndGet db (issued w) statement = inr (Some rows) ->
        issued outcome.2 = issued w ++ [CUpdateAndGet statement]
        /\ (rows = [] ->
            outcome.1 = inl (NotFoundError (not_found_for this key)))
        /\ (forall r1 r2 rest, rows = r1 :: r2 :: rest ->
            outcome.1
            = inl (TooManyResultsError (multiple_found_for this key)))
        /\ (forall row, rows = [row] -> exists m, outcome.1 = inr m)).
Proof.
  intros db key statement confirm outcome. subst outcome.
  unfold Upstream.update, sequence, bind. rewrite updated_rows_run.
  fold db key statement confirm. split.
  - intros ->. simpl.
    destruct (query db (issued w ++ [CUpdateAndGet statement]) confirm)
      as [reason|[|row rest]]; simpl.
    + repeat split; try done. intros [message [=]].
    + repeat split; try done. by eexists.
    + repeat split; try done; [intros [message [=]]|by eexists].
  - intros rows ->.
    destruct rows as [|r1 [|r2 rest]]; simpl; repeat split; try done.
    by eexists.
Qed.

(** C10.  A successful [update] of the second version returns the location
    it was given and writes the first answered row onto the object there,
    allocating nothing; a successful [update] of the first version returns
    a location that was unused, holding a copy of the model with the row
    assigned onto it, and leaves the object it was given as it was. *)
Theorem update_in_place_or_copy (this : CrudRepository) (model : loc)
    (attributes : Props) (w : World) (o : JsObject) :
  heap w !! model = Some o ->
  (forall (m : loc) (w' : World),
     Fork.update this model attributes w = (inr m, w') ->
     m = model
     /\ dom (heap w') = dom (heap w)
     /\ exists (row : Row) (rest : list Row) (w1 : World),
          updated_rows this (database this) model attributes w
          = (inr (row :: rest), w1)
          /\ heap w'
             = <[model := {| proto := proto o;
                             own := assign_props (own o) row |}]> (heap w))
  /\ (forall (m : loc) (w' : World),
        Upstream.update this model attributes w = (inr m, w') ->
        heap w !! m = None
        /\ heap w' !! model = Some o
        /\ exists (row : Row) (rest : list Row) (w1 : World),
             updated_rows this (database this) model attributes w
             = (inr (row :: rest), w1)
             /\ heap w'
                = <[m := {| proto := Some (CrudRepository.model this);
                            own := assign_props (assign_props [] (own o)) row |}]>
                    (heap w)).
Proof.
  intros Hmodel. split.
  - intros m w'. unfold Fork.update, sequence, bind.
    destruct (updated_rows this (database this) model attributes w)
      as [[e|results] w1] eqn:Hrun; [discriminate|].
    destruct (updated_rows_success _ _ _ _ _ _ _ Hrun)
      as [Hheap (row & rest & ->)].
    unfold Object_assign, ret. simpl. intros Heq. injection Heq as <- <-. simpl.
    rewrite Hheap. rewrite (alter_present _ _ _ _ Hmodel).
    split; [done|]. split.
    + apply dom_insert_lookup_L. by exists o.
    + by exists row, rest, w1.
  - intros m w'. unfold Upstream.update, sequence, bind.
    destruct (updated_rows this (database this) model attributes w)
      as [[e|results] w1] eqn:Hrun; [discriminate|].
    destruct (updated_rows_success _ _ _ _ _ _ _ Hrun)
      as [Hheap (row & rest & ->)].
    rewrite createModelFromAttributes_run.
    unfold Object_assign, ret. simpl. intros Heq. injection Heq as <- <-. simpl.
    rewrite Hheap. rewrite alter_insert_eq. simpl.
    pose proof (fresh_unused (heap w)) as Hfresh.
    assert (Hne : fresh (dom (heap w)) <> model)
      by (intros Heq; rewrite Heq in Hfresh; congruence).
    rewrite !(lookup_insert_ne _ _ _ _ Hne), Hmodel.
    split; [done|]. split; [done|]. by exists row, rest, w1.
Qed.

(** *** [create] *)

Lemma fetch_inserted_run (this : CrudRepository) (db : DatabaseInterface)
    (data : Value) (w : World) :
  let fetch := select_by_primary_key this data in
  let w1 := {| heap := heap w; issued := issued w ++ [CQuery fetch] |} in
  fetch_inserted this db data w
  = match query db (issued w) fetch with
    | inl reason => (inl (Rejected reason), w1)
    | inr [] => (inl (NotFoundError (not_found_after this "insert" data)), w1)
    | inr (row :: rest) => createModelFromAttributes this (FromRow row) w1
    end.
Proof.
  intros fetch w1. unfold fetch_inserted, bind, await_query, answer, throw.
  fold fetch. by destruct (query db (issued w) fetch) as [reason|[|row rest]].
Qed.

(** C6.  When the first element answered by [insertAndGet] is a string or a
    number, [create] next sends the SELECT filtered on the primary key
    being that value; it returns a new model carrying the fetched row when
    one row comes back, and throws NotFound when none does. *)
Theorem create_fetches_by_id (this : CrudRepository) (attributes : Props)
    (w : World) (inserted : list Data) (id : Value) :
  let db := database this in
  let statement := insert_statement this attributes in
  let fetch := select_by_primary_key this id in
  let selected := query db (issued w ++ [CInsertAndGet statement]) fetch in
  let outcome := Fork.create this attributes w in
  insertAndGet db (issued w) statement = inr inserted ->
  is_scalar (first_data inserted) = Some id ->
  issued outcome.2 = issued w ++ [CInsertAndGet statement; CQuery fetch]
  /\ (forall ph fmt,
        compile fetch ph fmt
        = mkCompiledQuery
            (line 5 "SELECT *" +:+ line 5 "FROM " +:+ fmt (table this)
               +:+ line 5 "WHERE " +:+ fmt (primaryKey this)
               +:+ " = " +:+ ph 0%nat +:+ ";" +:+ line 4 "")
            [id])
  /\ (selected = inr [] ->
        outcome.1 = inl (NotFoundError (not_found_after this "insert" id))
        /\ heap outcome.2 = heap w)
  /\ (forall row : Row,
        selected = inr [row] -> NoDup row.*1 ->
        exists m : loc,
          outcome.1 = inr m
          /\ heap w !! m = None
          /\ heap outcome.2
             = <[m := {| proto := Some (model this); own := row |}]> (heap w)).
Proof.
  intros db statement fetch selected outcome Hinserted Hscalar.
  subst outcome.
  split; [|split; [apply select_by_primary_key_compiled|]].
  all: unfold Fork.create, sequence, bind, await_insertAndGet, answer;
    fold db statement; rewrite Hinserted; simpl; rewrite Hscalar;
    rewrite fetch_inserted_run; simpl; fold fetch selected.
  - rewrite <- app_assoc. simpl.
    by destruct selected as [reason|[|row rest]].
  - split.
    + by intros ->.
    + intros row -> Hnd. rewrite createModelFromAttributes_run. simpl.
      exists (fresh (dom (heap w))). rewrite assign_props_fresh by done.
      split; [done|]. split; [apply fresh_unused|done].
Qed.

(** The first version fetches the inserted row in the same way. *)
Lemma upstream_create_fetches_by_id (this : CrudRepository)
    (attributes : Props) (w : World) (inserted : list Data) (id : Value) :
  let db := database this in
  let statement := insert_statement this attributes in
  insertAndGet db (issued w) statement = inr inserted ->
  is_scalar (first_data inserted) = Some id ->
  Upstream.create this attributes w = Fork.create this attributes w.
Proof.
  intros db statement Hinserted Hscalar.
  unfold Upstream.create, Fork.create, sequence, bind, await_insertAndGet,
    answer.
  fold db statement. rewrite Hinserted. simpl. by rewrite Hscalar.
Qed.

(** In the second version, a first element that is [undefined], [null] or
    [false] makes [create] return a new model carrying the submitted
    attributes, without any further statement. *)
Lemma create_echoes_attributes (this : CrudRepository) (attributes : Props)
    (w : World) (inserted : list Data) :
  let db := database this in
  let statement := insert_statement this attributes in
  let outcome := Fork.create this attributes w in
  insertAndGet db (issued w) statement = inr inserted ->
  is_scalar (first_data inserted) = None ->
  truthy (first_data inserted) = false ->
  NoDup attributes.*1 ->
  issued outcome.2 = issued w ++ [CInsertAndGet statement]
  /\ exists m : loc,
       outcome.1 = inr m
       /\ heap w !! m = None
       /\ heap outcome.2
          = <[m := {| proto := Some (model this); own := attributes |}]> (heap w).
Proof.
  intros db statement outcome Hinserted Hscalar Hfalsy Hnd. subst outcome.
  unfold Fork.create, sequence, bind, await_insertAndGet, answer.
  fold db statement. rewrite Hinserted. simpl. rewrite Hscalar, Hfalsy.
  rewrite createModelFromAttributes_run. simpl.
  split; [done|]. exists (fresh (dom (heap w))).
  rewrite assign_props_fresh by done.
  split; [done|]. split; [apply fresh_unused|done].
Qed.

(** *** The scope *)

Ltac compiled_with_offsets :=
  rewrite compile_text_bound; simpl;
  rewrite ?append_assoc, ?append_nil_r, ?append_nil_l, ?app_nil_r,
    <- ?app_assoc, ?length_app, ?Nat.add_0_r, ?Nat.add_1_r, ?Nat.add_succ_r,
    ?Nat.add_assoc;
  reflexivity.

Lemma get_statement_compiled (this : CrudRepository) (s : SqlQuery)
    (primaryKeyValue : Value) (postfix select : option SqlQuery)
    (ph : nat -> string) (fmt : string -> string) :
  scope this = Some s ->
  let n := length (bound (selectClause select)) in
  compile (get_statement this primaryKeyValue postfix select) ph fmt
  = mkCompiledQuery
      (line 3 "SELECT " +:+ text ph fmt (selectClause select) 0
         +:+ line 3 "FROM " +:+ fmt (table this)
         +:+ line 3 "WHERE " +:+ fmt (primaryKey this) +:+ " = " +:+ ph n
         +:+ " AND " +:+ "(" +:+ text ph fmt s (S n) +:+ ")"
         +:+ line 3 ""
         +:+ text ph fmt (optionalClause "" postfix) (S n + length (bound s))
         +:+ ";" +:+ line 2 "")
      (bound (selectClause select)
         ++ primaryKeyValue :: bound s ++ bound (optionalClause "" postfix)).
Proof.
  intros Hscope n. subst n.
  unfold get_statement, get_filters. rewrite Hscope.
  generalize (selectClause select) (optionalClause "" postfix).
  intros sel pf. compiled_with_offsets.
Qed.

Lemma search_statement_compiled (this : CrudRepository) (s : SqlQuery)
    (from postfix where_ groupBy orderBy select : option SqlQuery)
    (ph : nat -> string) (fmt : string -> string) :
  scope this = Some s ->
  let sel := selectClause select in
  let frm := Fork.fromClause this from select in
  let pf := optionalClause "" postfix in
  let gb := optionalClause "GROUP BY " groupBy in
  let ob := optionalClause "ORDER BY " orderBy in
  let n1 := length (bound sel) in
  let n2 := (n1 + length (bound frm))%nat in
  let n3 := (n2 + length (bound pf))%nat in
  let n4 := (n3 + length (bound s))%nat in
  let n5 := (n4 + length (from_option bound [] where_))%nat in
  let n6 := (n5 + length (bound gb))%nat in
  compile
    (Fork.search_statement this from postfix where_ groupBy orderBy select)
    ph fmt
  = mkCompiledQuery
      (line 3 "SELECT " +:+ text ph fmt sel 0
         +:+ line 3 "FROM " +:+ text ph fmt frm n1 +:+ " " +:+ text ph fmt pf n2
         +:+ line 3 "" +:+ "WHERE " +:+ "(" +:+ text ph fmt s n3 +:+ ")"
         +:+ match where_ with
             | Some w => " AND " +:+ "(" +:+ text ph fmt w n4 +:+ ")"
             | None => ""
             end
         +:+ line 3 "" +:+ text ph fmt gb n5
         +:+ line 3 "" +:+ text ph fmt ob n6
         +:+ line 2 "")
      (bound sel ++ bound frm ++ bound pf ++ bound s
         ++ from_option bound [] where_ ++ bound gb ++ bound ob).
Proof.
  intros Hscope sel frm pf gb ob n1 n2 n3 n4 n5 n6.
  subst n6 n5 n4 n3 n2 n1.
  unfold Fork.search_statement, search_filters. rewrite Hscope.
  fold sel frm pf gb ob. clearbody sel frm pf gb ob.
  destruct where_ as [w|]; compiled_with_offsets.
Qed.

Lemma bound_join (queries : list SqlQuery) (separator : SqlQuery) :
  bound separator = [] ->
  bound (join queries separator) = flat_map bound queries.
Proof.
  intros Hsep. unfold join. simpl.
  induction queries as [|q rest IH]; [reflexivity|].
  destruct rest as [|q' rest]; simpl in *.
  - reflexivity.
  - by rewrite Hsep, IH.
Qed.

Lemma bound_fieldQueries (attributes : Props) :
  bound (join (fieldQueries attributes) (CrudRepository.sql ", " [] []))
  = attributes.*2.
Proof.
  rewrite bound_join by reflexivity.
  induction attributes as [|[k v] rest IH]; [reflexivity|].
  simpl in *. by rewrite IH.
Qed.

Lemma bound_fields (attributes : Props) :
  bound (join (fields attributes) (CrudRepository.sql ", " [] [])) = [].
Proof.
  rewrite bound_join by reflexivity.
  induction attributes as [|[k v] rest IH]; [reflexivity|]. apply IH.
Qed.

Lemma bound_values (attributes : Props) :
  bound (join (values attributes) (CrudRepository.sql ", " [] []))
  = attributes.*2.
Proof.
  rewrite bound_join by reflexivity.
  induction attributes as [|[k v] rest IH]; [reflexivity|].
  simpl in *. by rewrite IH.
Qed.

Lemma insert_statement_compiled (this : CrudRepository) (attributes : Props)
    (ph : nat -> string) (fmt : string -> string) :
  compile (insert_statement this attributes) ph fmt
  = mkCompiledQuery
      (line 4 "INSERT INTO " +:+ fmt (table this) +:+ " ("
         +:+ text ph fmt
               (join (fields attributes) (CrudRepository.sql ", " [] [])) 0
         +:+ ")" +:+ line 4 "VALUES ("
         +:+ text ph fmt
               (join (values attributes) (CrudRepository.sql ", " [] [])) 0
         +:+ ")" +:+ line 3 "")
      attributes.*2.
Proof.
  unfold insert_statement.
  pose proof (bound_fields attributes) as Hfields.
  pose proof (bound_values attributes) as Hvalues.
  revert Hfields Hvalues.
  generalize (join (fields attributes) (CrudRepository.sql ", " [] []))
             (join (values attributes) (CrudRepository.sql ", " [] [])).
  intros names vals Hfields Hvalues. rewrite compile_text_bound. simpl.
  rewrite Hfields, Hvalues. simpl.
  rewrite ?append_assoc, ?append_nil_r, ?append_nil_l, ?app_nil_r,
    ?Nat.add_0_r.
  reflexivity.
Qed.

Lemma create_issued (this : CrudRepository) (attributes : Props) (w : World) :
  let statement := insert_statement this attributes in
  let sent := issued (Fork.create this attributes w).2 in
  sent = issued w ++ [CInsertAndGet statement]
  \/ exists id : Value,
       sent = issued w
                ++ [CInsertAndGet statement;
                    CQuery (select_by_primary_key this id)].
Proof.
  intros statement sent. subst sent.
  unfold Fork.create, sequence, bind, await_insertAndGet, answer.
  fold statement.
  destruct (insertAndGet _ _ _) as [reason|inserted]; simpl; [by left|].
  destruct (is_scalar (first_data inserted)) as [id|].
  - right. exists id. rewrite fetch_inserted_run. simpl.
    rewrite <- app_assoc. simpl.
    by destruct (query _ _ _) as [reason|[|row rest]].
  - left. by rewrite createModelFromAttributes_run.
Qed.

Lemma update_statement_compiled (this : CrudRepository) (key : Value)
    (attributes : Props) (ph : nat -> string) (fmt : string -> string) :
  compile (update_statement this key attributes) ph fmt
  = mkCompiledQuery
      (line 4 "UPDATE " +:+ fmt (table this)
         +:+ line 4 "SET "
         +:+ text ph fmt
               (join (fieldQueries attributes) (CrudRepository.sql ", " [] [])) 0
         +:+ line 4 "WHERE " +:+ fmt (primaryKey this)
         +:+ " = " +:+ ph (length attributes) +:+ line 3 "")
      (attributes.*2 ++ [key]).
Proof.
  unfold update_statement.
  pose proof (bound_fieldQueries attributes) as Hbound.
  revert Hbound.
  generalize (join (fieldQueries attributes) (CrudRepository.sql ", " [] [])).
  intros sets Hbound. rewrite compile_text_bound. simpl.
  rewrite Hbound, length_fmap.
  rewrite ?append_assoc, ?append_nil_r, ?append_nil_l, ?app_nil_r,
    ?Nat.add_0_r.
  reflexivity.
Qed.

Lemma map_models_issued (this : CrudRepository) (results : list Row) :
  forall w : World, issued (map_models this results w).2 = issued w.
Proof.
  induction results as [|r rest IH]; intros w; [reflexivity|].
  simpl. unfold bind. rewrite createModelFromAttributes_run.
  specialize (IH {| heap := <[fresh (dom (heap w)) :=
                               {| proto := Some (model this);
                                  own := assign_props [] r |}]> (heap w);
                    issued := issued w |}).
  simpl in *. by destruct (map_models this rest _) as [[e|ms] w'].
Qed.

Lemma update_issued (this : CrudRepository) (model : loc)
    (attributes : Props) (w : World) :
  let key := get_property (heap w) model (primaryKey this) in
  let statement := update_statement this key attributes in
  let confirm := select_by_primary_key this key in
  let sent := issued (Fork.update this model attributes w).2 in
  sent = issued w ++ [CUpdateAndGet statement]
  \/ sent = issued w ++ [CUpdateAndGet statement; CQuery confirm].
Proof.
  intros key statement confirm sent. subst sent.
  unfold Fork.update, sequence, bind. rewrite updated_rows_run.
  fold key statement confirm.
  destruct (updateAndGet _ _ _) as [reason|[[|r1 [|r2 rest]]|]]; simpl;
    auto.
  destruct (query _ _ _) as [reason|[|row rest]]; simpl; auto.
Qed.

(** C1, as the code has it.  With a scope configured, the SELECT sent by
    [get] filters on the primary key AND the parenthesised scope, and the
    SELECT sent by [search] filters on the parenthesised scope AND the
    parenthesised [where] option when there is one; the values bound by the
    scope are bound by these statements.  The UPDATE and the SELECT sent by
    [update], the DELETE sent by [delete] and the SELECT sent by [create]
    after its INSERT filter on the primary key alone, and these statements
    bind nothing of the scope. *)
Theorem scope_filters_the_selects (this : CrudRepository) (s : SqlQuery)
    (ph : nat -> string) (fmt : string -> string) :
  scope this = Some s ->
  (forall (primaryKeyValue : Value) (postfix select : option SqlQuery)
          (w : World),
     let statement := get_statement this primaryKeyValue postfix select in
     let n := length (bound (selectClause select)) in
     issued (get this primaryKeyValue postfix select w).2
     = issued w ++ [CQuery statement]
     /\ compile statement ph fmt
        = mkCompiledQuery
            (line 3 "SELECT " +:+ text ph fmt (selectClause select) 0
               +:+ line 3 "FROM " +:+ fmt (table this)
               +:+ line 3 "WHERE " +:+ fmt (primaryKey this)
               +:+ " = " +:+ ph n
               +:+ " AND " +:+ "(" +:+ text ph fmt s (S n) +:+ ")"
               +:+ line 3 ""
               +:+ text ph fmt (optionalClause "" postfix)
                     (S n + length (bound s))
               +:+ ";" +:+ line 2 "")
            (bound (selectClause select)
               ++ primaryKeyValue :: bound s
               ++ bound (optionalClause "" postfix)))
  /\ (forall (from postfix where_ groupBy orderBy select : option SqlQuery)
             (w : World),
        let statement :=
          Fork.search_statement this from postfix where_ groupBy orderBy
            select in
        let sel := selectClause select in
        let frm := Fork.fromClause this from select in
        let pf := optionalClause "" postfix in
        let gb := optionalClause "GROUP BY " groupBy in
        let ob := optionalClause "ORDER BY " orderBy in
        let n1 := length (bound sel) in
        let n2 := (n1 + length (bound frm))%nat in
        let n3 := (n2 + length (bound pf))%nat in
        let n4 := (n3 + length (bound s))%nat in
        let n5 := (n4 + length (from_option bound [] where_))%nat in
        let n6 := (n5 + length (bound gb))%nat in
        issued
          (Fork.search this from postfix where_ groupBy orderBy select w).2
        = issued w ++ [CQuery statement]
        /\ compile statement ph fmt
           = mkCompiledQuery
               (line 3 "SELECT " +:+ text ph fmt sel 0
                  +:+ line 3 "FROM " +:+ text ph fmt frm n1
                  +:+ " " +:+ text ph fmt pf n2
                  +:+ line 3 ""
                  +:+ "WHERE " +:+ "(" +:+ text ph fmt s n3 +:+ ")"
                  +:+ match where_ with
                      | Some w => " AND " +:+ "(" +:+ text ph fmt w n4 +:+ ")"
                      | None => ""
                      end
                  +:+ line 3 "" +:+ text ph fmt gb n5
                  +:+ line 3 "" +:+ text ph fmt ob n6
                  +:+ line 2 "")
               (bound sel ++ bound frm ++ bound pf ++ bound s
                  ++ from_option bound [] where_ ++ bound gb ++ bound ob))
  /\ (forall (model : loc) (attributes : Props) (w : World),
        let key := get_property (heap w) model (primaryKey this) in
        let statement := update_statement this key attributes in
        let confirm := select_by_primary_key this key in
        let sent := issued (Fork.update this model attributes w).2 in
        (sent = issued w ++ [CUpdateAndGet statement]
         \/ sent = issued w ++ [CUpdateAndGet statement; CQuery confirm])
        /\ compile statement ph fmt
           = mkCompiledQuery
               (line 4 "UPDATE " +:+ fmt (table this)
                  +:+ line 4 "SET "
                  +:+ text ph fmt
                        (join (fieldQueries attributes)
                           (CrudRepository.sql ", " [] [])) 0
                  +:+ line 4 "WHERE " +:+ fmt (primaryKey this)
                  +:+ " = " +:+ ph (length attributes) +:+ line 3 "")
               (attributes.*2 ++ [key])
        /\ compile confirm ph fmt
           = mkCompiledQuery
               (line 5 "SELECT *" +:+ line 5 "FROM " +:+ fmt (table this)
                  +:+ line 5 "WHERE " +:+ fmt (primaryKey this)
                  +:+ " = " +:+ ph 0%nat +:+ ";" +:+ line 4 "")
               [key])
  /\ (forall (model : loc) (w : World),
        let key := get_property (heap w) model (primaryKey this) in
        let statement := delete_statement this key in
        issued (delete this model w).2 = issued w ++ [CQuery statement]
        /\ compile statement ph fmt
           = mkCompiledQuery
               (line 3 "DELETE FROM " +:+ fmt (table this)
                  +:+ line 3 "WHERE " +:+ fmt (primaryKey this)
                  +:+ " = " +:+ ph 0%nat +:+ ";" +:+ line 2 "")
               [key])
  /\ (forall (attributes : Props) (w : World),
        let statement := insert_statement this attributes in
        let sent := issued (Fork.create this attributes w).2 in
        (sent = issued w ++ [CInsertAndGet statement]
         \/ exists id : Value,
              sent = issued w
                       ++ [CInsertAndGet statement;
                           CQuery (select_by_primary_key this id)])
        /\ compile statement ph fmt
           = mkCompiledQuery
               (line 4 "INSERT INTO " +:+ fmt (table this) +:+ " ("
                  +:+ text ph fmt
                        (join (fields attributes)
                           (CrudRepository.sql ", " [] [])) 0
                  +:+ ")" +:+ line 4 "VALUES ("
                  +:+ text ph fmt
                        (join (values attributes)
                           (CrudRepository.sql ", " [] [])) 0
                  +:+ ")" +:+ line 3 "")
               attributes.*2
        /\ forall id : Value,
             compile (select_by_primary_key this id) ph fmt
             = mkCompiledQuery
                 (line 5 "SELECT *" +:+ line 5 "FROM " +:+ fmt (table this)
                    +:+ line 5 "WHERE " +:+ fmt (primaryKey this)
                    +:+ " = " +:+ ph 0%nat +:+ ";" +:+ line 4 "")
                 [id]).
Proof.
  intros Hscope. split; [|split; [|split; [|split]]].
  - intros key postfix select w statement n. split.
    + apply get_issued.
    + by apply get_statement_compiled.
  - intros from postfix where_ groupBy orderBy select w statement.
    intros sel frm pf gb ob n1 n2 n3 n4 n5 n6. split.
    + unfold Fork.search, bind, await_query, answer. fold statement.
      destruct (query _ _ _) as [reason|rows]; [reflexivity|].
      by rewrite map_models_issued.
    + by apply search_statement_compiled.
  - intros model attributes w key statement confirm sent.
    split; [apply update_issued|].
    split; [apply update_statement_compiled
           |apply select_by_primary_key_compiled].
  - intros model w key statement.
    split; [apply delete_issued|apply delete_statement_compiled].
  - intros attributes w statement sent.
    split; [apply create_issued|].
    split; [apply insert_statement_compiled|].
    intros id. apply select_by_primary_key_compiled.
Qed.

(** *** Where the code departs from its description *)

Import Examples.

(** C1, as stated, fails: with the soft-delete scope configured, the
    DELETE sent by [delete] and the UPDATE sent by [update] are filtered on
    [id] alone; the scope is no part of either statement, and its value is
    not bound. *)
Lemma scope_absent_from_delete_and_update :
  scope scoped_users = Some not_deleted
  /\ issued (delete scoped_users 2%positive world0).2
     = [CQuery (delete_statement scoped_users (VNumber 7))]
  /\ compile (delete_statement scoped_users (VNumber 7)) dollar quoted
     = mkCompiledQuery
         (line 3 "DELETE FROM " +:+ quoted "users"
            +:+ line 3 "WHERE " +:+ quoted "id" +:+ " = $0;" +:+ line 2 "")
         [VNumber 7]
  /\ nested_in not_deleted (delete_statement scoped_users (VNumber 7)) = false
  /\ issued (Fork.update scoped_users 2%positive [("name", VString "Bob")]
               world0).2
     = [CUpdateAndGet
          (update_statement scoped_users (VNumber 7) [("name", VString "Bob")])]
  /\ compile
       (update_statement scoped_users (VNumber 7) [("name", VString "Bob")])
       dollar quoted
     = mkCompiledQuery
         (line 4 "UPDATE " +:+ quoted "users"
            +:+ line 4 "SET " +:+ quoted "name" +:+ " = $0"
            +:+ line 4 "WHERE " +:+ quoted "id" +:+ " = $1" +:+ line 3 "")
         [VString "Bob"; VNumber 7]
  /\ nested_in not_deleted
       (update_statement scoped_users (VNumber 7) [("name", VString "Bob")])
     = false
  /\ nested_in not_deleted (get_statement scoped_users (VNumber 7) None None)
     = true.
Proof. repeat split; vm_compute; reflexivity. Qed.

(** An omitted option leaves an empty clause: no keyword, no text, no
    value; without scope and without [where] there is no WHERE either. *)
Lemma omitted_clause_is_empty (keyword : string) (ph : nat -> string)
    (fmt : string -> string) :
  compile (optionalClause keyword None) ph fmt = mkCompiledQuery "" []
  /\ compile (whereClause []) ph fmt = mkCompiledQuery "" [].
Proof. split; reflexivity. Qed.

(** C3.  In the second version the FROM clause is chosen by the [select]
    option: with [select] given and [from] omitted it is a bound
    [undefined], not the table; with [from] given and [select] omitted the
    given fragment is dropped. *)
Theorem search_from_follows_select :
  (forall (this : CrudRepository) (select : SqlQuery)
          (ph : nat -> string) (fmt : string -> string),
     compile (Fork.fromClause this None (Some select)) ph fmt
     = mkCompiledQuery (ph 0%nat) [VUndefined])
  /\ (forall (this : CrudRepository) (from : SqlQuery)
             (ph : nat -> string) (fmt : string -> string),
        compile (Fork.fromClause this (Some from) None) ph fmt
        = mkCompiledQuery (fmt (table this)) [])
  /\ compile
       (Fork.search_statement (users (stub [] [] None) None)
          None None None None None (Some (CrudRepository.sql "id" [] [])))
       dollar quoted
     = mkCompiledQuery
         (line 3 "SELECT id" +:+ line 3 "FROM $0 "
            +:+ line 3 "" +:+ line 3 "" +:+ line 3 "" +:+ line 2 "")
         [VUndefined]
  /\ compile
       (Fork.search_statement (users (stub [] [] None) None)
          (Some (CrudRepository.sql "orders" [] [])) None None None None None)
       dollar quoted
     = mkCompiledQuery
         (line 3 "SELECT *" +:+ line 3 "FROM " +:+ quoted "users" +:+ " "
            +:+ line 3 "" +:+ line 3 "" +:+ line 3 "" +:+ line 2 "")
         [].
Proof.
  split; [|split; [|split]].
  - intros. rewrite compile_text_bound. simpl.
    by rewrite ?append_nil_r.
  - intros. rewrite compile_text_bound. simpl.
    by rewrite ?append_nil_r.
  - vm_compute. reflexivity.
  - vm_compute. reflexivity.
Qed.

(** C7.  In the first version, when [insertAndGet] answers with an empty
    array (so that the first element is [undefined]) or with [null],
    [create] returns a model without any field, where the second version
    returns a model carrying the submitted attributes (the second version
    itself passes a truthy answer such as [true] on, and then returns a
    model without any field as well). *)
Theorem upstream_create_drops_attributes :
  let upstream := Upstream.create (users (stub [] [] None) None) ann world0 in
  let upstream_null :=
    Upstream.create (users (stub [] [DValue VNull] None) None) ann world0 in
  let fork := Fork.create (users (stub [] [] None) None) ann world0 in
  let fork_true :=
    Fork.create (users (stub [] [DValue (VBoolean true)] None) None) ann
      world0 in
  upstream.1 = inr 3%positive
  /\ heap upstream.2 !! 3%positive
     = Some {| proto := Some 1%positive; own := [] |}
  /\ upstream_null.1 = inr 3%positive
  /\ heap upstream_null.2 !! 3%positive
     = Some {| proto := Some 1%positive; own := [] |}
  /\ fork.1 = inr 3%positive
  /\ heap fork.2 !! 3%positive
     = Some {| proto := Some 1%positive; own := ann |}
  /\ heap fork_true.2 !! 3%positive
     = Some {| proto := Some 1%positive; own := [] |}.
Proof. repeat split; vm_compute; reflexivity. Qed.

(** *** The theorems at work on stub drivers *)

Lemma ann_keys_NoDup : NoDup ann.*1.
Proof. by apply (bool_decide_unpack (NoDup _)). Qed.

Lemma bob_keys_NoDup : NoDup bob.*1.
Proof. by apply (bool_decide_unpack (NoDup _)). Qed.

Lemma get_one_row_or_error_witness :
  (exists m : loc,
     (get (users (stub [bob] [] None) None) (VNumber 8) None None world0).1
     = inr m
     /\ heap world0 !! m = None
     /\ heap
          (get (users (stub [bob] [] None) None) (VNumber 8) None None
             world0).2
        = <[m := {| proto := Some 1%positive; own := bob |}]> (heap world0))
  /\ (get (users (stub [] [] None) None) (VNumber 8) None None world0).1
     = inl (NotFoundError "Object not found in table users for id = 8")
  /\ (get (users (stub [bob; ann] [] None) None) (VNumber 8) None None
        world0).1
     = inl (TooManyResultsError
              "Multiple objects found in table users for id = 8").
Proof.
  split; [|split].
  - destruct (get_one_row_or_error (users (stub [bob] [] None) None)
                (VNumber 8) None None world0) as (_ & H & _ & _).
    exact (H bob eq_refl bob_keys_NoDup).
  - destruct (get_one_row_or_error (users (stub [] [] None) None)
                (VNumber 8) None None world0) as (_ & _ & H & _).
    exact (proj1 (H eq_refl)).
  - destruct (get_one_row_or_error (users (stub [bob; ann] [] None) None)
                (VNumber 8) None None world0) as (_ & _ & _ & H).
    exact (proj1 (H bob ann [] eq_refl)).
Defined.

Lemma delete_is_unchecked_witness :
  (delete (users (stub [] [] None) None) 2%positive world0).1 = inr tt
  /\ issued (delete (users (stub [] [] None) None) 2%positive world0).2
     = [CQuery (delete_statement (users (stub [] [] None) None) (VNumber 7))].
Proof.
  destruct (delete_is_unchecked (users (stub [] [] None) None) 2%positive
              world0) as (Hsent & _ & _ & _ & _ & Hdone).
  split; [exact (Hdone [] eq_refl)|exact Hsent].
Defined.

Lemma update_checks_the_rows_witness :
  (exists message,
     (Fork.update (users (stub [] [] None) None) 2%positive
        [("name", VString "Bob")] world0).1
     = inl (NotFoundError message))
  /\ (Fork.update (users (stub [bob] [] None) None) 2%positive
        [("name", VString "Bob")] world0).1
     = inr 2%positive
  /\ (Fork.update (users (stub [] [] (Some [])) None) 2%positive
        [("name", VString "Bob")] world0).1
     = inl (NotFoundError "Object not found in table users for id = 7")
  /\ (Fork.update (users (stub [] [] (Some [ann; bob])) None) 2%positive
        [("name", VString "Bob")] world0).1
     = inl (TooManyResultsError
              "Multiple objects found in table users for id = 7")
  /\ (Fork.update (users (stub [] [] (Some [bob])) None) 2%positive
        [("name", VString "Bob")] world0).1
     = inr 2%positive.
Proof.
  split; [|split; [|split; [|split]]].
  - destruct (update_checks_the_rows (users (stub [] [] None) None)
                2%positive [("name", VString "Bob")] world0) as [H _].
    destruct (H eq_refl) as (_ & _ & Hiff & _ & _).
    exact (proj1 Hiff eq_refl).
  - destruct (update_checks_the_rows (users (stub [bob] [] None) None)
                2%positive [("name", VString "Bob")] world0) as [H _].
    destruct (H eq_refl) as (_ & _ & _ & _ & Hok).
    exact (Hok bob [] eq_refl).
  - destruct (update_checks_the_rows (users (stub [] [] (Some [])) None)
                2%positive [("name", VString "Bob")] world0) as [_ H].
    destruct (H [] eq_refl) as (_ & Hnone & _ & _).
    exact (Hnone eq_refl).
  - destruct (update_checks_the_rows
                (users (stub [] [] (Some [ann; bob])) None)
                2%positive [("name", VString "Bob")] world0) as [_ H].
    destruct (H [ann; bob] eq_refl) as (_ & _ & Hmany & _).
    exact (Hmany ann bob [] eq_refl).
  - destruct (update_checks_the_rows (users (stub [] [] (Some [bob])) None)
                2%positive [("name", VString "Bob")] world0) as [_ H].
    destruct (H [bob] eq_refl) as (_ & _ & _ & Hone).
    exact (Hone bob eq_refl).
Defined.

Lemma create_fetches_by_id_witness :
  (exists m : loc,
     (Fork.create (users (stub [bob] [DValue (VNumber 8)] None) None) ann
        world0).1 = inr m
     /\ heap world0 !! m = None
     /\ heap
          (Fork.create (users (stub [bob] [DValue (VNumber 8)] None) None)
             ann world0).2
        = <[m := {| proto := Some 1%positive; own := bob |}]> (heap world0))
  /\ (Fork.create (users (stub [] [DValue (VString "u8")] None) None) ann
        world0).1
     = inl (NotFoundError
              "Object not found in table users after insert (got id = u8)").
Proof.
  split.
  - destruct (create_fetches_by_id
                (users (stub [bob] [DValue (VNumber 8)] None) None) ann world0
                [DValue (VNumber 8)] (VNumber 8) eq_refl eq_refl)
      as (_ & _ & _ & H).
    exact (H bob eq_refl bob_keys_NoDup).
  - destruct (create_fetches_by_id
                (users (stub [] [DValue (VString "u8")] None) None) ann world0
                [DValue (VString "u8")] (VString "u8") eq_refl eq_refl)
      as (_ & _ & H & _).
    exact (proj1 (H eq_refl)).
Defined.

Lemma update_in_place_or_copy_witness :
  (Fork.update (users (stub [] [] (Some [bob])) None) 2%positive
     [("name", VString "Bob")] world0).1 = inr 2%positive
  /\ heap
       (Fork.update (users (stub [] [] (Some [bob])) None) 2%positive
          [("name", VString "Bob")] world0).2 !! 2%positive
     = Some {| proto := Some 1%positive; own := bob |}
  /\ (Upstream.update (users (stub [] [] (Some [bob])) None) 2%positive
        [("name", VString "Bob")] world0).1 = inr 3%positive
  /\ heap
       (Upstream.update (users (stub [] [] (Some [bob])) None) 2%positive
          [("name", VString "Bob")] world0).2 !! 2%positive
     = Some {| proto := Some 1%positive; own := ann |}.
Proof.
  destruct (update_in_place_or_copy (users (stub [] [] (Some [bob])) None)
              2%positive [("name", VString "Bob")] world0
              {| proto := Some 1%positive; own := ann |} eq_refl)
    as [Hfork Hupstream].
  destruct (Hfork 2%positive _ eq_refl) as (_ & _ & _).
  destruct (Hupstream 3%positive _ eq_refl) as (_ & Hkept & _).
  split; [reflexivity|]. split; [reflexivity|]. split; [reflexivity|].
  exact Hkept.
Defined.

Lemma scope_filters_the_selects_witness :
  compile (get_statement scoped_users (VNumber 7) None None) dollar quoted
  = mkCompiledQuery
      (line 3 "SELECT *" +:+ line 3 "FROM " +:+ quoted "users"
         +:+ line 3 "WHERE " +:+ quoted "id" +:+ " = $0 AND (deleted = $1)"
         +:+ line 3 ";" +:+ line 2 "")
      [VNumber 7; VBoolean false]
  /\ compile
       (Fork.search_statement scoped_users None None
          (Some (CrudRepository.sql "name = " [""] [AValue (VString "Ann")]))
          None None None)
       dollar quoted
     = mkCompiledQuery
         (line 3 "SELECT *" +:+ line 3 "FROM " +:+ quoted "users" +:+ " "
            +:+ line 3 "WHERE (deleted = $0) AND (name = $1)"
            +:+ line 3 "" +:+ line 3 "" +:+ line 2 "")
         [VBoolean false; VString "Ann"].
Proof.
  destruct (scope_filters_the_selects scoped_users not_deleted dollar quoted
              eq_refl) as (Hget & Hsearch & _ & _ & _).
  split.
  - destruct (Hget (VNumber 7) None None world0) as [_ Hcompiled].
    vm_compute in Hcompiled. vm_compute. exact Hcompiled.
  - destruct (Hsearch None None
                (Some (CrudRepository.sql "name = " [""]
                         [AValue (VString "Ann")]))
                None None None world0) as [_ Hcompiled].
    vm_compute in Hcompiled. vm_compute. exact Hcompiled.
Defined.

End CrudRepositoryFacts.

(** ** [Query]: what a compiled template holds *)

Module QueryCompiled.
Import Query QueryFacts QueriesFacts Renderings.

Lemma compile_pushed_values (f : nat -> string) (values : list Value)
    (rest : list string) :
  forall (i : nat) (acc : CompiledQuery),
    length (params acc) = i ->
    fold_left (compile_step f) (pushed (AValue <$> values) (S i) rest) acc
    = {| sql := sql acc +:+ interleaved f i rest;
         params := params acc
                     ++ map (fun j => default VUndefined (values !! j))
                          (seq i (length rest)) |}.
Proof.
  induction rest as [|s rest IH]; intros i acc Hlen; simpl.
  - rewrite append_nil_r, app_nil_r. by destruct acc.
  - unfold substitution. simpl. rewrite Nat.sub_0_r, list_lookup_fmap.
    destruct (values !! i) as [v|] eqn:Hv; simpl;
      (rewrite IH; simpl;
       [by rewrite Hlen, !append_assoc, <- app_assoc
       |rewrite length_app; simpl; lia]).
Qed.

(** X1.  A template whose arguments are all values compiles to its chunks
    interleaved with the placeholders [0], [1], ... and to one parameter
    per hole: the arguments in order, [undefined] for a hole without
    argument, arguments beyond the holes left out. *)
Theorem template_compiles_to_its_values (strings : TemplateStringsArray)
    (values : list Value) (f : nat -> string)
    (st : gmap loc (list QueryPart)) :
  let built := createFromTemplateString strings (AValue <$> values) st in
  compile built.1 f built.2
  = (mkCompiledQuery
       (strings_first strings +:+ interleaved f 0 (strings_rest strings))
       (hole_values values (length (strings_rest strings))),
     built.2).
Proof.
  rewrite createFromTemplateString_store. simpl.
  unfold compile, compile_parts. simpl. rewrite lookup_insert_eq. simpl.
  by rewrite compile_pushed_values.
Qed.

Lemma pushed_direct_params (params : list Any) (rest : list string) :
  forall i : nat,
    flat_map (fun p => match p with PParam qp => [param qp] | _ => [] end)
      (pushed params (S i) rest)
    = flat_map (hole_param params) (seq i (length rest)).
Proof.
  induction rest as [|s rest IH]; intros i; [reflexivity|].
  simpl. rewrite IH. unfold substitution, hole_param. simpl.
  rewrite Nat.sub_0_r. by destruct (params !! i) as [[q|v]|].
Qed.

(** X2.  Whatever the arguments of a template are, [compile] returns one
    parameter per hole filled with a value (or left without argument), in
    order, and none for a hole filled with a fragment, whatever that
    fragment binds. *)
Theorem compile_binds_the_direct_values (strings : TemplateStringsArray)
    (arguments : list Any) (f : nat -> string)
    (st : gmap loc (list QueryPart)) :
  let built := createFromTemplateString strings arguments st in
  params (compile built.1 f built.2).1
  = flat_map (hole_param arguments) (seq 0 (length (strings_rest strings))).
Proof.
  rewrite createFromTemplateString_store. simpl.
  unfold compile, compile_parts. simpl. rewrite lookup_insert_eq. simpl.
  rewrite compile_step_params. simpl. apply pushed_direct_params.
Qed.

Lemma pushed_surplus (params extra : list Any) (rest : list string) :
  forall i : nat,
    i + length rest <= length params ->
    pushed (params ++ extra) (S i) rest = pushed params (S i) rest.
Proof.
  induction rest as [|s rest IH]; intros i Hlen; [reflexivity|].
  simpl in *. rewrite IH by lia. unfold substitution. simpl.
  rewrite Nat.sub_0_r. by rewrite lookup_app_l by lia.
Qed.

(** X3.  Arguments beyond the holes of the template are ignored. *)
Theorem surplus_arguments_are_ignored (strings : TemplateStringsArray)
    (params extra : list Any) (st : gmap loc (list QueryPart)) :
  length (strings_rest strings) <= length params ->
  createFromTemplateString strings (params ++ extra) st
  = createFromTemplateString strings params st.
Proof.
  intros Hlen. rewrite !createFromTemplateString_store. simpl.
  by rewrite pushed_surplus.
Qed.

Lemma surplus_arguments_are_ignored_witness :
  createFromTemplateString (mkStrings "id = " [""])
    ([AValue (VNumber 1)] ++ [AValue (VNumber 2)]) ∅
  = createFromTemplateString (mkStrings "id = " [""]) [AValue (VNumber 1)] ∅.
Proof.
  apply (surplus_arguments_are_ignored (mkStrings "id = " [""])
           [AValue (VNumber 1)] [AValue (VNumber 2)] ∅).
  simpl. lia.
Defined.

Lemma pushed_lookup (arguments : list Any) (rest : list string) :
  forall (j i : nat) (s : string),
    rest !! i = Some s ->
    pushed arguments j rest !! (2 * i) = Some (substitution arguments (j + i))
    /\ pushed arguments j rest !! (2 * i + 1) = Some (PString s).
Proof.
  induction rest as [|s0 rest IH]; intros j i s Hs; [done|].
  destruct i as [|i]; simpl in *.
  - injection Hs as ->. by rewrite Nat.add_0_r.
  - destruct (IH (S j) i s Hs) as [Heven Hodd].
    replace (i + S (i + 0)) with (S (2 * i)) by lia. simpl.
    replace (j + S i) with (S j + i) by lia.
    split; [exact Heven|].
    replace (i + (i + 0) + 1) with (2 * i + 1) by lia. exact Hodd.
Qed.

Lemma pushed_length (arguments : list Any) (rest : list string) :
  forall j : nat, length (pushed arguments j rest) = 2 * length rest.
Proof.
  induction rest as [|s rest IH]; intros j; [done|].
  simpl. rewrite IH. lia.
Qed.

(** X4.  The array of a template holds its first chunk at index [0] and, for
    hole [i], the argument at index [2i + 1] and the chunk that follows it
    at index [2i + 2]: a fragment argument is stored as it is, a value
    inside a [QueryParam], a missing argument as [undefined]. *)
Theorem template_parts_by_index (strings : TemplateStringsArray)
    (arguments : list Any) (st : gmap loc (list QueryPart)) :
  exists elems : list QueryPart,
    let built := createFromTemplateString strings arguments st in
    built.2 !! parts built.1 = Some elems
    /\ length elems = 2 * length (strings_rest strings) + 1
    /\ elems !! 0 = Some (PString (strings_first strings))
    /\ forall (i : nat) (s : string),
         strings_rest strings !! i = Some s ->
         elems !! (2 * i + 1)
         = Some match arguments !! i with
                | Some (AQuery q) => PQuery q
                | Some (AValue v) => PParam (mkQueryParam v)
                | None => PParam (mkQueryParam VUndefined)
                end
         /\ elems !! (2 * i + 2) = Some (PString s).
Proof.
  exists (PString (strings_first strings)
            :: pushed arguments 1 (strings_rest strings)).
  rewrite createFromTemplateString_store. simpl.
  split; [apply lookup_insert_eq|]. split.
  - simpl. rewrite pushed_length. lia.
  - split; [done|]. intros i s Hs.
    destruct (pushed_lookup arguments (strings_rest strings) 1 i s Hs)
      as [Heven Hodd].
    rewrite !lookup_cons_ne_0 by lia. split.
    + match goal with
      | |- _ !! Nat.pred ?a = _ => replace (Nat.pred a) with (2 * i) by lia
      end.
      rewrite Heven. unfold substitution. simpl. by rewrite Nat.sub_0_r.
    + match goal with
      | |- _ !! Nat.pred ?a = _ => replace (Nat.pred a) with (2 * i + 1) by lia
      end.
      exact Hodd.
Qed.

Lemma template_parts_by_index_witness :
  Examples.outer_built.2 !! parts Examples.outer_built.1
  = Some [PString "SELECT * FROM t WHERE ";
          PQuery Examples.inner_built.1; PString ""].
Proof.
  destruct (template_parts_by_index
              (mkStrings "SELECT * FROM t WHERE " [""])
              [AQuery Examples.inner_built.1] Examples.inner_built.2)
    as (elems & Hstored & Hlength & Hfirst & Hholes).
  destruct (Hholes 0 "" eq_refl) as [Hargument Hchunk].
  simpl in *.
  destruct elems as [|p0 [|p1 [|p2 [|p3 elems]]]]; try discriminate.
  simpl in *. injection Hfirst as ->. injection Hargument as ->.
  injection Hchunk as ->. exact Hstored.
Defined.

End QueryCompiled.

(** ** The repository: rows, rejections and what is left alone *)

Module CrudRepositoryRuns.
Import Queries CrudRepository QueriesFacts CrudRepositoryFacts Renderings.

Lemma createModelFromAttributes_keeps (this : CrudRepository)
    (attributes : Assignable) (w : World) (l : loc) (o : JsObject) :
  heap w !! l = Some o ->
  heap (createModelFromAttributes this attributes w).2 !! l = Some o.
Proof.
  intros Hl. rewrite createModelFromAttributes_run. simpl.
  rewrite lookup_insert_ne; [done|].
  intros Heq. pose proof (fresh_unused (heap w)) as Hfresh.
  rewrite Heq in Hfresh. congruence.
Qed.

Lemma map_models_run (this : CrudRepository) (rows : list Row) :
  Forall (fun row => NoDup row.*1) rows ->
  forall w : World,
    exists (ms : list loc) (w' : World),
      map_models this rows w = (inr ms, w')
      /\ issued w' = issued w
      /\ NoDup ms
      /\ Forall (fun m => heap w !! m = None) ms
      /\ Forall2 (fun m row =>
                    heap w' !! m
                    = Some {| proto := Some (model this); own := row |})
           ms rows
      /\ (forall l o, heap w !! l = Some o -> heap w' !! l = Some o).
Proof.
  induction 1 as [|row rows Hrow _ IH]; intros w.
  - exists [], w. repeat split; try done; constructor.
  - simpl. unfold bind. rewrite createModelFromAttributes_run. simpl.
    rewrite assign_props_fresh by done.
    set (m := fresh (dom (heap w))).
    set (w1 := {| heap := <[m := {| proto := Some (model this); own := row |}]>
                            (heap w);
                  issued := issued w |}).
    destruct (IH w1) as (ms & w' & Hrun & Hissued & Hnd & Hfresh & Hall & Hkeep).
    rewrite Hrun. exists (m :: ms), w'. simpl.
    assert (Hm : heap w !! m = None) by apply fresh_unused.
    split; [done|]. split; [done|]. split.
    { apply NoDup_cons_2; [|done]. intros Hin.
      rewrite Forall_forall in Hfresh. specialize (Hfresh m Hin).
      simpl in Hfresh. by rewrite lookup_insert_eq in Hfresh. }
    split.
    { constructor; [done|]. eapply Forall_impl; [exact Hfresh|].
      intros m' Hm'. simpl in Hm'.
      destruct (decide (m = m')) as [<-|Hne]; [done|].
      by rewrite lookup_insert_ne in Hm'. }
    split.
    { constructor; [|done]. apply Hkeep. simpl. apply lookup_insert_eq. }
    intros l o Hl. apply Hkeep. simpl.
    rewrite lookup_insert_ne; [done|]. intros Heq. congruence.
Qed.

Lemma map_models_keeps (this : CrudRepository) (rows : list Row) :
  forall (w : World) (l : loc) (o : JsObject),
    heap w !! l = Some o ->
    heap (map_models this rows w).2 !! l = Some o.
Proof.
  induction rows as [|row rows IH]; intros w l o Hl; [done|].
  simpl. unfold bind.
  pose proof (createModelFromAttributes_keeps this (FromRow row) w l o Hl)
    as Hkept.
  destruct (createModelFromAttributes this (FromRow row) w) as [[e|m] w1];
    [done|].
  specialize (IH w1 l o Hkept).
  by destruct (map_models this rows w1) as [[e|ms] w'].
Qed.

(** X5.  [search] returns one new model per answered row, in the order of the
    rows, each carrying the fields of its row; models are pairwise
    distinct, no object that existed is changed, and an answer without
    rows gives the empty list.  Both versions. *)
Theorem search_maps_every_row (this : CrudRepository)
    (from postfix where_ groupBy orderBy select : option SqlQuery)
    (w : World) (rows : list Row) :
  Forall (fun row => NoDup row.*1) rows ->
  (let statement :=
     Fork.search_statement this from postfix where_ groupBy orderBy select in
   let outcome :=
     Fork.search this from postfix where_ groupBy orderBy select w in
   query (database this) (issued w) statement = inr rows ->
   exists ms : list loc,
     outcome.1 = inr ms
     /\ issued outcome.2 = issued w ++ [CQuery statement]
     /\ NoDup ms
     /\ Forall (fun m => heap w !! m = None) ms
     /\ Forall2 (fun m row =>
                   heap outcome.2 !! m
                   = Some {| proto := Some (model this); own := row |})
          ms rows
     /\ (forall l o, heap w !! l = Some o -> heap outcome.2 !! l = Some o))
  /\ (let statement :=
        Upstream.search_statement this postfix where_ orderBy select in
      let outcome := Upstream.search this postfix where_ orderBy select w in
      query (database this) (issued w) statement = inr rows ->
      exists ms : list loc,
        outcome.1 = inr ms
        /\ issued outcome.2 = issued w ++ [CQuery statement]
        /\ NoDup ms
        /\ Forall (fun m => heap w !! m = None) ms
        /\ Forall2 (fun m row =>
                      heap outcome.2 !! m
                      = Some {| proto := Some (model this); own := row |})
             ms rows
        /\ (forall l o, heap w !! l = Some o -> heap outcome.2 !! l = Some o)).
Proof.
  intros Hrows. split.
  - intros statement outcome Hanswer. subst outcome.
    unfold Fork.search, bind, await_query, answer.
    fold statement. rewrite Hanswer. simpl.
    destruct (map_models_run this rows Hrows
                {| heap := heap w; issued := issued w ++ [CQuery statement] |})
      as (ms & w' & Hrun & Hissued & Hnd & Hfresh & Hall & Hkeep).
    rewrite Hrun. exists ms. by simpl.
  - intros statement outcome Hanswer. subst outcome.
    unfold Upstream.search, bind, await_query, answer.
    fold statement. rewrite Hanswer. simpl.
    destruct (map_models_run this rows Hrows
                {| heap := heap w; issued := issued w ++ [CQuery statement] |})
      as (ms & w' & Hrun & Hissued & Hnd & Hfresh & Hall & Hkeep).
    rewrite Hrun. exists ms. by simpl.
Qed.

Lemma updated_rows_heap (this : CrudRepository) (db : DatabaseInterface)
    (model : loc) (attributes : Props) (w : World) :
  heap (updated_rows this db model attributes w).2 = heap w.
Proof.
  rewrite updated_rows_run.
  destruct (updateAndGet db _ _) as [reason|[[|r1 [|r2 rest]]|]]; try done.
  by destruct (query db _ _) as [reason|[|row rest]].
Qed.

(** X6.  No method but [update] of the second version writes to an object that
    exists: after [get], [search], [create], [delete] and the first
    version's [update], every object of the heap is as it was. *)
Theorem existing_objects_are_kept (this : CrudRepository) (w : World)
    (l : loc) (o : JsObject) :
  heap w !! l = Some o ->
  (forall key postfix select,
     heap (get this key postfix select w).2 !! l = Some o)
  /\ (forall from postfix where_ groupBy orderBy select,
        heap (Fork.search this from postfix where_ groupBy orderBy select w).2
          !! l = Some o)
  /\ (forall postfix where_ orderBy select,
        heap (Upstream.search this postfix where_ orderBy select w).2 !! l
        = Some o)
  /\ (forall attributes, heap (Fork.create this attributes w).2 !! l = Some o)
  /\ (forall attributes,
        heap (Upstream.create this attributes w).2 !! l = Some o)
  /\ (forall model attributes,
        heap (Upstream.update this model attributes w).2 !! l = Some o)
  /\ (forall model, heap (delete this model w).2 !! l = Some o).
Proof.
  intros Hl. repeat split.
  - intros key postfix select. unfold get, bind, await_query, answer.
    destruct (query _ _ _) as [reason|[|r1 [|r2 rest]]]; try done.
    by apply createModelFromAttributes_keeps.
  - intros from postfix where_ groupBy orderBy select.
    unfold Fork.search, bind, await_query, answer.
    destruct (query _ _ _) as [reason|rows]; [done|].
    by apply map_models_keeps.
  - intros postfix where_ orderBy select.
    unfold Upstream.search, bind, await_query, answer.
    destruct (query _ _ _) as [reason|rows]; [done|].
    by apply map_models_keeps.
  - intros attributes.
    unfold Fork.create, sequence, bind, await_insertAndGet, answer.
    destruct (insertAndGet _ _ _) as [reason|inserted]; [done|]. simpl.
    destruct (is_scalar (first_data inserted)) as [id|].
    + rewrite fetch_inserted_run.
      destruct (query _ _ _) as [reason|[|row rest]]; try done.
      by apply createModelFromAttributes_keeps.
    + by apply createModelFromAttributes_keeps.
  - intros attributes.
    unfold Upstream.create, sequence, bind, await_insertAndGet, answer.
    destruct (insertAndGet _ _ _) as [reason|inserted]; [done|]. simpl.
    destruct (is_scalar (first_data inserted)) as [id|].
    + rewrite fetch_inserted_run.
      destruct (query _ _ _) as [reason|[|row rest]]; try done.
      by apply createModelFromAttributes_keeps.
    + by apply createModelFromAttributes_keeps.
  - intros model attributes. unfold Upstream.update, sequence, bind.
    pose proof (updated_rows_heap this (database this) model attributes w)
      as Hheap.
    destruct (updated_rows this (database this) model attributes w)
      as [[e|results] w1]; [simpl in *; by rewrite Hheap|].
    rewrite createModelFromAttributes_run.
    unfold Object_assign, ret. simpl in *. rewrite alter_insert_eq, Hheap.
    rewrite lookup_insert_ne; [done|].
    intros Heq. pose proof (fresh_unused (heap w)) as Hfresh.
    rewrite Heq in Hfresh. congruence.
  - intros model. unfold delete, bind, read, await_query, answer, ret. simpl.
    by destruct (query _ _ _).
Qed.


(** X7.  A rejection of the driver reaches the caller as it is; the method
    stops there: it sends nothing more and creates no model. *)
Theorem rejections_pass_through (this : CrudRepository) (reason : string)
    (w : World) :
  let db := database this in
  (forall key postfix select,
     let statement := get_statement this key postfix select in
     query db (issued w) statement = inl reason ->
     get this key postfix select w
     = (inl (Rejected reason),
        {| heap := heap w; issued := issued w ++ [CQuery statement] |}))
  /\ (forall from postfix where_ groupBy orderBy select,
        let statement :=
          Fork.search_statement this from postfix where_ groupBy orderBy
            select in
        query db (issued w) statement = inl reason ->
        Fork.search this from postfix where_ groupBy orderBy select w
        = (inl (Rejected reason),
           {| heap := heap w; issued := issued w ++ [CQuery statement] |}))
  /\ (forall attributes,
        let statement := insert_statement this attributes in
        insertAndGet db (issued w) statement = inl reason ->
        Fork.create this attributes w
        = (inl (Rejected reason),
           {| heap := heap w;
              issued := issued w ++ [CInsertAndGet statement] |}))
  /\ (forall attributes inserted id,
        let statement := insert_statement this attributes in
        let fetch := select_by_primary_key this id in
        insertAndGet db (issued w) statement = inr inserted ->
        is_scalar (first_data inserted) = Some id ->
        query db (issued w ++ [CInsertAndGet statement]) fetch = inl reason ->
        Fork.create this attributes w
        = (inl (Rejected reason),
           {| heap := heap w;
              issued := issued w ++ [CInsertAndGet statement; CQuery fetch] |}))
  /\ (forall model attributes,
        let key := get_property (heap w) model (primaryKey this) in
        let statement := update_statement this key attributes in
        updateAndGet db (issued w) statement = inl reason ->
        Fork.update this model attributes w
        = (inl (Rejected reason),
           {| heap := heap w;
              issued := issued w ++ [CUpdateAndGet statement] |}))
  /\ (forall model attributes,
        let key := get_property (heap w) model (primaryKey this) in
        let statement := update_statement this key attributes in
        let confirm := select_by_primary_key this key in
        updateAndGet db (issued w) statement = inr None ->
        query db (issued w ++ [CUpdateAndGet statement]) confirm = inl reason ->
        Fork.update this model attributes w
        = (inl (Rejected reason),
           {| heap := heap w;
              issued := issued w ++ [CUpdateAndGet statement; CQuery confirm] |}))
  /\ (forall model,
        let key := get_property (heap w) model (primaryKey this) in
        let statement := delete_statement this key in
        query db (issued w) statement = inl reason ->
        delete this model w
        = (inl (Rejected reason),
           {| heap := heap w; issued := issued w ++ [CQuery statement] |})).
Proof.
  intros db. repeat split.
  - intros key postfix select statement Hrejected.
    unfold get, bind, await_query, answer. fold db statement.
    by rewrite Hrejected.
  - intros from postfix where_ groupBy orderBy select statement Hrejected.
    unfold Fork.search, bind, await_query, answer. fold db statement.
    by rewrite Hrejected.
  - intros attributes statement Hrejected.
    unfold Fork.create, sequence, bind, await_insertAndGet, answer.
    fold db statement. by rewrite Hrejected.
  - intros attributes inserted id statement fetch Hinserted Hscalar Hrejected.
    unfold Fork.create, sequence, bind, await_insertAndGet, answer.
    fold db statement. rewrite Hinserted. simpl. rewrite Hscalar.
    rewrite fetch_inserted_run. simpl. fold fetch. rewrite Hrejected.
    by rewrite <- app_assoc.
  - intros model attributes key statement Hrejected.
    unfold Fork.update, sequence, bind. rewrite updated_rows_run.
    fold db key statement. by rewrite Hrejected.
  - intros model attributes key statement confirm Hnull Hrejected.
    unfold Fork.update, sequence, bind. rewrite updated_rows_run.
    fold db key statement confirm. rewrite Hnull. simpl.
    by rewrite Hrejected.
  - intros model key statement Hrejected.
    unfold delete, bind, read, await_query, answer, ret. simpl.
    fold db key statement. by rewrite Hrejected.
Qed.

(** *** [create] *)

(** X8.  When the first element answered by [insertAndGet] is a row, [create]
    sends nothing after the INSERT and returns a new model carrying that
    row, in both versions. *)
Theorem create_keeps_the_answered_row (this : CrudRepository)
    (attributes : Props) (w : World) (inserted : list Data) (row : Row) :
  let db := database this in
  let statement := insert_statement this attributes in
  insertAndGet db (issued w) statement = inr inserted ->
  first_data inserted = DRow row ->
  NoDup row.*1 ->
  exists m : loc,
    heap w !! m = None
    /\ Fork.create this attributes w
       = (inr m,
          {| heap := <[m := {| proto := Some (model this); own := row |}]>
                       (heap w);
             issued := issued w ++ [CInsertAndGet statement] |})
    /\ Upstream.create this attributes w = Fork.create this attributes w.
Proof.
  intros db statement Hinserted Hrow Hnd.
  exists (fresh (dom (heap w))). split; [apply fresh_unused|].
  unfold Upstream.create, Fork.create, sequence, bind, await_insertAndGet,
    answer.
  fold db statement. rewrite Hinserted. simpl. rewrite Hrow. simpl.
  rewrite createModelFromAttributes_run. simpl.
  by rewrite assign_props_fresh.
Qed.

(** X9.  [create] never throws TooManyResults: when the SELECT after the INSERT
    answers with several rows, the model carries the first one. *)
Theorem create_takes_the_first_row (this : CrudRepository)
    (attributes : Props) (w : World) :
  (forall message,
     (Fork.create this attributes w).1 <> inl (TooManyResultsError message)
     /\ (Upstream.create this attributes w).1
        <> inl (TooManyResultsError message))
  /\ (forall (inserted : list Data) (id : Value) (row : Row) (rest : list Row),
        let db := database this in
        let statement := insert_statement this attributes in
        let fetch := select_by_primary_key this id in
        insertAndGet db (issued w) statement = inr inserted ->
        is_scalar (first_data inserted) = Some id ->
        query db (issued w ++ [CInsertAndGet statement]) fetch
        = inr (row :: rest) ->
        NoDup row.*1 ->
        exists m : loc,
          heap w !! m = None
          /\ (Fork.create this attributes w).1 = inr m
          /\ heap (Fork.create this attributes w).2
             = <[m := {| proto := Some (model this); own := row |}]> (heap w)).
Proof.
  split.
  - intros message.
    unfold Upstream.create, Fork.create, sequence, bind, await_insertAndGet,
      answer.
    destruct (insertAndGet _ _ _) as [reason|inserted]; [done|]. simpl.
    destruct (is_scalar (first_data inserted)) as [id|].
    + rewrite fetch_inserted_run.
      by destruct (query _ _ _) as [reason|[|row rest]].
    + by rewrite !createModelFromAttributes_run.
  - intros inserted id row rest db statement fetch Hinserted Hscalar
      Hselected Hnd.
    exists (fresh (dom (heap w))). split; [apply fresh_unused|].
    unfold Fork.create, sequence, bind, await_insertAndGet, answer.
    fold db statement. rewrite Hinserted. simpl. rewrite Hscalar.
    rewrite fetch_inserted_run. simpl. fold fetch. rewrite Hselected.
    rewrite createModelFromAttributes_run. simpl.
    by rewrite assign_props_fresh.
Qed.

(** X10.  The two versions of [create] do the same unless the first element
    answered by [insertAndGet] is neither a string nor a number and is
    falsy. *)
Theorem create_versions_agree (this : CrudRepository) (attributes : Props)
    (w : World) (inserted : list Data) :
  insertAndGet (database this) (issued w) (insert_statement this attributes)
  = inr inserted ->
  is_scalar (first_data inserted) <> None
  \/ truthy (first_data inserted) = true ->
  Upstream.create this attributes w = Fork.create this attributes w.
Proof.
  intros Hinserted Hdata.
  unfold Upstream.create, Fork.create, sequence, bind, await_insertAndGet,
    answer.
  rewrite Hinserted. simpl.
  destruct (is_scalar (first_data inserted)) as [id|]; [done|].
  destruct Hdata as [Hscalar|Htruthy]; [done|]. by rewrite Htruthy.
Qed.

(** *** [update] *)

(** X11.  An [update] that throws leaves the heap as it was: the model it was
    given is not written.  The two versions throw the same errors after
    the same statements. *)
Theorem failed_update_writes_nothing (this : CrudRepository) (model : loc)
    (attributes : Props) (w : World) :
  let fork := Fork.update this model attributes w in
  let upstream := Upstream.update this model attributes w in
  (forall e, fork.1 = inl e -> heap fork.2 = heap w)
  /\ (forall e, upstream.1 = inl e -> heap upstream.2 = heap w)
  /\ (forall e, fork.1 = inl e <-> upstream.1 = inl e)
  /\ issued fork.2 = issued upstream.2.
Proof.
  intros fork upstream. subst fork upstream.
  unfold Fork.update, Upstream.update, sequence, bind.
  pose proof (updated_rows_heap this (database this) model attributes w)
    as Hheap.
  destruct (updated_rows this (database this) model attributes w)
    as [[e|results] w1]; simpl in *.
  - done.
  - rewrite alter_insert_eq. repeat split; done.
Qed.

Lemma prop_get_absent (k : string) (o : Props) :
  k ∉ o.*1 -> prop_get k o = None.
Proof.
  induction o as [|[k' v'] o IH]; simpl; intros Hk; [done|].
  rewrite not_elem_of_cons in Hk. destruct Hk as [Hne Hk].
  destruct (decide (k = k')); [done|]. by apply IH.
Qed.

Lemma prop_get_prop_set (k k' : string) (v : Value) (o : Props) :
  prop_get k (prop_set k' v o)
  = if decide (k = k') then Some v else prop_get k o.
Proof.
  induction o as [|[k0 v0] o IH]; simpl.
  - by destruct (decide (k = k')).
  - destruct (decide (k' = k0)) as [->|Hne]; simpl.
    + by destruct (decide (k = k0)).
    + destruct (decide (k = k0)) as [->|Hne'].
      * destruct (decide (k0 = k')); [congruence|done].
      * exact IH.
Qed.

(** Reading a field after [Object.assign]: the value of the source when it
    has the field, else the value the target had. *)
Lemma prop_get_assign_props (k : string) (source : Props) :
  NoDup source.*1 ->
  forall target : Props,
    prop_get k (assign_props target source)
    = match prop_get k source with
      | Some v => Some v
      | None => prop_get k target
      end.
Proof.
  unfold assign_props.
  induction source as [|[k' v'] source IH]; intros Hnd target; [done|].
  simpl in *. apply NoDup_cons in Hnd as [Hk' Hnd].
  rewrite IH by done. rewrite prop_get_prop_set.
  destruct (decide (k = k')) as [->|Hne]; [|done].
  by rewrite prop_get_absent.
Qed.

(** X12.  After a successful [update], a field of the returned model reads as
    the first answered row has it, and as the given model had it when the
    row lacks the field; in both versions. *)
Theorem update_merges_the_row (this : CrudRepository) (model : loc)
    (attributes : Props) (w : World) (o : JsObject) (row : Row)
    (rest : list Row) :
  heap w !! model = Some o ->
  (updated_rows this (database this) model attributes w).1
  = inr (row :: rest) ->
  NoDup row.*1 ->
  let merged (k : string) :=
    match prop_get k row with
    | Some v => Some v
    | None => prop_get k (own o)
    end in
  let fork := Fork.update this model attributes w in
  let upstream := Upstream.update this model attributes w in
  (fork.1 = inr model
   /\ forall k, own_property (heap fork.2) model k = merged k)
  /\ (NoDup (own o).*1 ->
      exists m : loc,
        upstream.1 = inr m
        /\ heap w !! m = None
        /\ forall k, own_property (heap upstream.2) m k = merged k).
Proof.
  intros Hmodel Hrows Hnd merged fork upstream. subst fork upstream.
  unfold Fork.update, Upstream.update, sequence, bind.
  pose proof (updated_rows_heap this (database this) model attributes w)
    as Hheap.
  destruct (updated_rows this (database this) model attributes w)
    as [[e|results] w1]; simpl in Hrows; [done|].
  injection Hrows as ->. simpl in Hheap. split.
  - unfold Object_assign, ret. simpl. split; [done|]. intros k.
    unfold own_property. rewrite Hheap, lookup_alter_eq, Hmodel. simpl.
    by apply prop_get_assign_props.
  - intros Hown. exists (fresh (dom (heap w))).
    rewrite createModelFromAttributes_run. unfold Object_assign, ret. simpl.
    rewrite Hheap, alter_insert_eq. simpl.
    pose proof (fresh_unused (heap w)) as Hfresh.
    assert (Hne : fresh (dom (heap w)) <> model)
      by (intros Heq; rewrite Heq in Hfresh; congruence).
    rewrite (lookup_insert_ne _ _ _ _ Hne), Hmodel.
    split; [done|]. split; [done|]. intros k.
    unfold own_property. rewrite lookup_insert_eq. simpl.
    rewrite prop_get_assign_props by done.
    subst merged. simpl. destruct (prop_get k row); [done|].
    rewrite prop_get_assign_props by done.
    by destruct (prop_get k (own o)).
Qed.


(** *** The theorems at work on stub drivers *)

Import Examples.

Lemma search_maps_every_row_witness :
  exists ms : list loc,
    (Fork.search (users (stub [ann; bob] [] None) None)
       None None None None None None world0).1 = inr ms
    /\ length ms = 2.
Proof.
  assert (Hrows : Forall (fun row : Row => NoDup row.*1) [ann; bob]).
  { apply List.Forall_cons; [apply ann_keys_NoDup|].
    apply List.Forall_cons; [apply bob_keys_NoDup|]. apply List.Forall_nil. }
  destruct (search_maps_every_row (users (stub [ann; bob] [] None) None)
              None None None None None None world0 [ann; bob] Hrows)
    as [Hfork _].
  destruct (Hfork eq_refl) as (ms & Hmodels & _ & _ & _ & Hall & _).
  exists ms. split; [exact Hmodels|].
  apply Forall2_length in Hall. exact Hall.
Defined.

Lemma existing_objects_are_kept_witness :
  heap (get (users (stub [bob] [] None) None) (VNumber 8) None None world0).2
    !! 2%positive
  = Some {| proto := Some 1%positive; own := ann |}.
Proof.
  destruct (existing_objects_are_kept (users (stub [bob] [] None) None)
              world0 2%positive {| proto := Some 1%positive; own := ann |}
              eq_refl) as (Hget & _).
  exact (Hget (VNumber 8) None None).
Defined.

Lemma rejections_pass_through_witness :
  get (users (rejecting "down") None) (VNumber 7) None None world0
  = (inl (Rejected "down"),
     {| heap := heap world0;
        issued := issued world0
                    ++ [CQuery (get_statement (users (rejecting "down") None)
                                  (VNumber 7) None None)] |})
  /\ Fork.create
       (users (select_rejecting "down" [DValue (VNumber 8)]) None) ann world0
     = (inl (Rejected "down"),
        {| heap := heap world0;
           issued :=
             issued world0
               ++ [CInsertAndGet
                     (insert_statement
                        (users (select_rejecting "down" [DValue (VNumber 8)])
                           None) ann);
                   CQuery
                     (select_by_primary_key
                        (users (select_rejecting "down" [DValue (VNumber 8)])
                           None) (VNumber 8))] |}).
Proof.
  split.
  - destruct (rejections_pass_through (users (rejecting "down") None) "down"
                world0) as (Hget & _).
    exact (Hget (VNumber 7) None None eq_refl).
  - destruct (rejections_pass_through
                (users (select_rejecting "down" [DValue (VNumber 8)]) None)
                "down" world0) as (_ & _ & _ & Hcreate & _).
    exact (Hcreate ann [DValue (VNumber 8)] (VNumber 8) eq_refl eq_refl
             eq_refl).
Defined.

Lemma create_keeps_the_answered_row_witness :
  exists m : loc,
    heap world0 !! m = None
    /\ Fork.create (users (stub [] [DRow bob] None) None) ann world0
       = (inr m,
          {| heap := <[m := {| proto := Some 1%positive; own := bob |}]>
                       (heap world0);
             issued :=
               issued world0
                 ++ [CInsertAndGet
                       (insert_statement (users (stub [] [DRow bob] None) None)
                          ann)] |})
    /\ Upstream.create (users (stub [] [DRow bob] None) None) ann world0
       = Fork.create (users (stub [] [DRow bob] None) None) ann world0.
Proof.
  exact (create_keeps_the_answered_row (users (stub [] [DRow bob] None) None)
           ann world0 [DRow bob] bob eq_refl eq_refl bob_keys_NoDup).
Defined.

Lemma create_takes_the_first_row_witness :
  exists m : loc,
    heap world0 !! m = None
    /\ (Fork.create (users (stub [bob; ann] [DValue (VNumber 8)] None) None)
          ann world0).1 = inr m
    /\ heap
         (Fork.create (users (stub [bob; ann] [DValue (VNumber 8)] None) None)
            ann world0).2
       = <[m := {| proto := Some 1%positive; own := bob |}]> (heap world0).
Proof.
  destruct (create_takes_the_first_row
              (users (stub [bob; ann] [DValue (VNumber 8)] None) None) ann
              world0) as [_ Hfirst].
  exact (Hfirst [DValue (VNumber 8)] (VNumber 8) bob [ann] eq_refl eq_refl
           eq_refl bob_keys_NoDup).
Defined.

Lemma create_versions_agree_witness :
  Upstream.create (users (stub [] [DRow bob] None) None) ann world0
  = Fork.create (users (stub [] [DRow bob] None) None) ann world0.
Proof.
  exact (create_versions_agree (users (stub [] [DRow bob] None) None) ann
           world0 [DRow bob] eq_refl (or_intror eq_refl)).
Defined.

Lemma failed_update_writes_nothing_witness :
  heap (Fork.update (users (stub [] [] (Some [])) None) 2%positive
          [("name", VString "Bob")] world0).2
  = heap world0.
Proof.
  destruct (failed_update_writes_nothing (users (stub [] [] (Some [])) None)
              2%positive [("name", VString "Bob")] world0) as (Hfork & _).
  exact (Hfork _ eq_refl).
Defined.

Lemma update_merges_the_row_witness :
  own_property
    (heap (Fork.update (users (stub [] [] (Some [[("name", VString "Bob")]]))
                          None)
             2%positive [("name", VString "Bob")] world0).2)
    2%positive "name"
  = Some (VString "Bob")
  /\ own_property
       (heap (Fork.update
                (users (stub [] [] (Some [[("name", VString "Bob")]])) None)
                2%positive [("name", VString "Bob")] world0).2)
       2%positive "id"
     = Some (VNumber 7).
Proof.
  assert (Hnd : NoDup [("name", VString "Bob")].*1)
    by (by apply (bool_decide_unpack (NoDup _))).
  destruct (update_merges_the_row
              (users (stub [] [] (Some [[("name", VString "Bob")]])) None)
              2%positive [("name", VString "Bob")] world0
              {| proto := Some 1%positive; own := ann |}
              [("name", VString "Bob")] [] eq_refl eq_refl Hnd)
    as [[_ Hfields] _].
  split; [exact (Hfields "name")|exact (Hfields "id")].
Defined.

End CrudRepositoryRuns.

(** ** The repository: the statements as text *)

Module CrudRepositoryStatements.
Import Queries CrudRepository QueriesFacts CrudRepositoryFacts Renderings.

Ltac normalise_text :=
  rewrite ?append_assoc, ?append_nil_r, ?append_nil_l, ?app_nil_r,
    <- ?app_assoc, ?length_app, ?Nat.add_0_r, ?Nat.add_1_r, ?Nat.add_succ_r,
    ?Nat.add_assoc.

Lemma text_join_more (ph : nat -> string) (fmt : string -> string)
    (q : SqlQuery) (rest : list SqlQuery) (separator : SqlQuery) (n : nat) :
  rest <> [] ->
  text ph fmt (join (q :: rest) separator) n
  = text ph fmt q n
      +:+ text ph fmt separator (n + length (bound q))
      +:+ text ph fmt (join rest separator)
            (n + length (bound q) + length (bound separator)).
Proof.
  intros Hrest. destruct rest as [|q' rest]; [done|].
  unfold join. rewrite !text_unfold.
  change (join_parts (q :: q' :: rest) separator)
    with (PQuery q :: PQuery separator :: join_parts (q' :: rest) separator).
  reflexivity.
Qed.

Lemma text_join_one (ph : nat -> string) (fmt : string -> string)
    (q : SqlQuery) (separator : SqlQuery) (n : nat) :
  text ph fmt (join [q] separator) n = text ph fmt q n.
Proof. unfold join. rewrite text_unfold. simpl. apply append_nil_r. Qed.

Lemma assignments_text_join (ph : nat -> string) (fmt : string -> string)
    (attributes : Props) :
  forall n : nat,
    text ph fmt (join (fieldQueries attributes) (CrudRepository.sql ", " [] []))
      n
    = assignments_text ph fmt n attributes.
Proof.
  induction attributes as [|kv rest IH]; intros n; [reflexivity|].
  destruct rest as [|kv' rest].
  - unfold fieldQueries. simpl map. rewrite text_join_one. simpl.
    by normalise_text.
  - change (fieldQueries (kv :: kv' :: rest))
      with (CrudRepository.sql "" [" = "; ""]
              [AQuery (QueryIdentifier kv.1); AValue kv.2]
            :: fieldQueries (kv' :: rest)).
    rewrite text_join_more by done. rewrite IH.
    change (assignments_text ph fmt n (kv :: kv' :: rest))
      with (fmt kv.1 +:+ " = " +:+ ph n +:+ ", "
              +:+ assignments_text ph fmt (S n) (kv' :: rest)).
    simpl text. simpl bound. simpl length. normalise_text. reflexivity.
Qed.

Lemma columns_text_join (ph : nat -> string) (fmt : string -> string)
    (attributes : Props) :
  forall n : nat,
    text ph fmt (join (fields attributes) (CrudRepository.sql ", " [] [])) n
    = columns_text fmt attributes.
Proof.
  induction attributes as [|kv rest IH]; intros n; [reflexivity|].
  destruct rest as [|kv' rest].
  - unfold fields. simpl map. rewrite text_join_one. simpl.
    by normalise_text.
  - change (fields (kv :: kv' :: rest))
      with (CrudRepository.sql "" [""] [AQuery (QueryIdentifier kv.1)]
            :: fields (kv' :: rest)).
    rewrite text_join_more by done. rewrite IH.
    change (columns_text fmt (kv :: kv' :: rest))
      with (fmt kv.1 +:+ ", " +:+ columns_text fmt (kv' :: rest)).
    simpl text. normalise_text. reflexivity.
Qed.

Lemma placeholders_text_join (ph : nat -> string) (fmt : string -> string)
    (attributes : Props) :
  forall n : nat,
    text ph fmt (join (values attributes) (CrudRepository.sql ", " [] [])) n
    = placeholders_text ph n attributes.
Proof.
  induction attributes as [|kv rest IH]; intros n; [reflexivity|].
  destruct rest as [|kv' rest].
  - unfold values. simpl map. rewrite text_join_one. simpl.
    by normalise_text.
  - change (values (kv :: kv' :: rest))
      with (CrudRepository.sql "" [""] [AValue kv.2] :: values (kv' :: rest)).
    rewrite text_join_more by done. rewrite IH.
    change (placeholders_text ph n (kv :: kv' :: rest))
      with (ph n +:+ ", " +:+ placeholders_text ph (S n) (kv' :: rest)).
    simpl text. simpl bound. simpl length. normalise_text. reflexivity.
Qed.

(** X13.  The UPDATE assigns the given attributes in their order, one
    placeholder each, numbered from [0]; the primary key takes the next
    placeholder and is bound last.  Without attributes the SET list is
    empty and the statement is sent all the same. *)
Theorem update_statement_reads (this : CrudRepository) (key : Value)
    (attributes : Props) (ph : nat -> string) (fmt : string -> string) :
  compile (update_statement this key attributes) ph fmt
  = mkCompiledQuery
      (line 4 "UPDATE " +:+ fmt (table this)
         +:+ line 4 "SET " +:+ assignments_text ph fmt 0 attributes
         +:+ line 4 "WHERE " +:+ fmt (primaryKey this)
         +:+ " = " +:+ ph (length attributes) +:+ line 3 "")
      (attributes.*2 ++ [key]).
Proof.
  rewrite update_statement_compiled. by rewrite assignments_text_join.
Qed.

(** X14.  The INSERT names the columns of the given attributes in their order
    and binds their values in the same order, one placeholder per column,
    numbered from [0]. *)
Theorem insert_statement_reads (this : CrudRepository) (attributes : Props)
    (ph : nat -> string) (fmt : string -> string) :
  compile (insert_statement this attributes) ph fmt
  = mkCompiledQuery
      (line 4 "INSERT INTO " +:+ fmt (table this)
         +:+ " (" +:+ columns_text fmt attributes +:+ ")"
         +:+ line 4 "VALUES (" +:+ placeholders_text ph 0 attributes +:+ ")"
         +:+ line 3 "")
      attributes.*2.
Proof.
  rewrite insert_statement_compiled.
  by rewrite columns_text_join, placeholders_text_join.
Qed.

(** X15.  The SELECT of the first version's [search] always reads from the
    table of the repository; its WHERE clause is absent without scope and
    without [where], and otherwise holds the parenthesised filters, the
    scope first. *)
Theorem upstream_search_statement_reads (this : CrudRepository)
    (postfix where_ orderBy select : option SqlQuery)
    (ph : nat -> string) (fmt : string -> string) :
  let sel := selectClause select in
  let pf := optionalClause "" postfix in
  let ob := optionalClause "ORDER BY " orderBy in
  let n1 := length (bound sel) in
  let n2 := (n1 + length (bound pf))%nat in
  let n3 := (n2 + length (from_option bound [] (scope this))
               + length (from_option bound [] where_))%nat in
  compile (Upstream.search_statement this postfix where_ orderBy select) ph fmt
  = mkCompiledQuery
      (line 3 "SELECT " +:+ text ph fmt sel 0
         +:+ line 3 "FROM " +:+ fmt (table this) +:+ " " +:+ text ph fmt pf n1
         +:+ line 3 "" +:+ where_text ph fmt (scope this) where_ n2
         +:+ line 3 "" +:+ text ph fmt ob n3
         +:+ line 2 "")
      (bound sel ++ bound pf ++ from_option bound [] (scope this)
         ++ from_option bound [] where_ ++ bound ob).
Proof.
  intros sel pf ob n1 n2 n3. subst n3 n2 n1.
  unfold Upstream.search_statement, search_filters.
  fold sel pf ob. clearbody sel pf ob.
  destruct (scope this) as [s|], where_ as [w|];
    rewrite compile_text_bound; simpl; normalise_text; reflexivity.
Qed.

(** X16.  The SELECT of the second version's [search]: every omitted option
    leaves its clause empty, and there is no WHERE keyword without scope
    and without [where]. *)
Theorem fork_search_statement_reads (this : CrudRepository)
    (from postfix where_ groupBy orderBy select : option SqlQuery)
    (ph : nat -> string) (fmt : string -> string) :
  let sel := selectClause select in
  let frm := Fork.fromClause this from select in
  let pf := optionalClause "" postfix in
  let gb := optionalClause "GROUP BY " groupBy in
  let ob := optionalClause "ORDER BY " orderBy in
  let n1 := length (bound sel) in
  let n2 := (n1 + length (bound frm))%nat in
  let n3 := (n2 + length (bound pf))%nat in
  let n4 := (n3 + length (from_option bound [] (scope this))
               + length (from_option bound [] where_))%nat in
  let n5 := (n4 + length (bound gb))%nat in
  compile
    (Fork.search_statement this from postfix where_ groupBy orderBy select)
    ph fmt
  = mkCompiledQuery
      (line 3 "SELECT " +:+ text ph fmt sel 0
         +:+ line 3 "FROM " +:+ text ph fmt frm n1 +:+ " " +:+ text ph fmt pf n2
         +:+ line 3 "" +:+ where_text ph fmt (scope this) where_ n3
         +:+ line 3 "" +:+ text ph fmt gb n4
         +:+ line 3 "" +:+ text ph fmt ob n5
         +:+ line 2 "")
      (bound sel ++ bound frm ++ bound pf
         ++ from_option bound [] (scope this)
         ++ from_option bound [] where_ ++ bound gb ++ bound ob)
  /\ (forall keyword n,
        text ph fmt (optionalClause keyword None) n = ""
        /\ bound (optionalClause keyword None) = [])
  /\ (forall keyword q n,
        text ph fmt (optionalClause keyword (Some q)) n
        = keyword +:+ text ph fmt q n
        /\ bound (optionalClause keyword (Some q)) = bound q).
Proof.
  intros sel frm pf gb ob n1 n2 n3 n4 n5. subst n5 n4 n3 n2 n1.
  split; [|split].
  - unfold Fork.search_statement, search_filters.
    fold sel frm pf gb ob. clearbody sel frm pf gb ob.
    destruct (scope this) as [s|], where_ as [w|];
      rewrite compile_text_bound; simpl; normalise_text; reflexivity.
  - intros keyword n. by split.
  - intros keyword q n. simpl. normalise_text. by split.
Qed.

(** X17.  Without scope, the SELECT of [get] filters on the primary key alone. *)
Theorem get_statement_without_scope (this : CrudRepository)
    (primaryKeyValue : Value) (postfix select : option SqlQuery)
    (ph : nat -> string) (fmt : string -> string) :
  scope this = None ->
  let n := length (bound (selectClause select)) in
  compile (get_statement this primaryKeyValue postfix select) ph fmt
  = mkCompiledQuery
      (line 3 "SELECT " +:+ text ph fmt (selectClause select) 0
         +:+ line 3 "FROM " +:+ fmt (table this)
         +:+ line 3 "WHERE " +:+ fmt (primaryKey this) +:+ " = " +:+ ph n
         +:+ line 3 "" +:+ text ph fmt (optionalClause "" postfix) (S n)
         +:+ ";" +:+ line 2 "")
      (bound (selectClause select)
         ++ primaryKeyValue :: bound (optionalClause "" postfix)).
Proof.
  intros Hscope n. subst n.
  unfold get_statement, get_filters. rewrite Hscope.
  generalize (selectClause select) (optionalClause "" postfix).
  intros sel pf. rewrite compile_text_bound. simpl. normalise_text.
  reflexivity.
Qed.

(** *** The primary key of a model *)

Lemma get_property_own (h : gmap loc JsObject) (l : loc) (o : JsObject)
    (k : string) (v : Value) :
  h !! l = Some o -> prop_get k (own o) = Some v -> get_property h l k = v.
Proof.
  intros Hl Hk. unfold get_property.
  destruct (size h) as [|n] eqn:Hsize.
  - apply map_size_empty_inv in Hsize. subst h. by rewrite lookup_empty in Hl.
  - simpl. by rewrite Hl, Hk.
Qed.

Lemma get_property_missing (h : gmap loc JsObject) (l : loc) (o : JsObject)
    (k : string) :
  h !! l = Some o -> prop_get k (own o) = None -> proto o = None ->
  get_property h l k = VUndefined.
Proof.
  intros Hl Hk Hproto. unfold get_property.
  destruct (size h) as [|n]; [done|]. simpl. by rewrite Hl, Hk, Hproto.
Qed.

(** X18.  [delete] and [update] filter on the primary-key field of the model
    they are given.  A model without that field, and without prototype to
    inherit it from, makes them bind [undefined]: the statement is sent
    all the same. *)
Theorem primary_key_comes_from_the_model (this : CrudRepository)
    (model : loc) (w : World) (o : JsObject) :
  heap w !! model = Some o ->
  (forall v : Value,
     prop_get (primaryKey this) (own o) = Some v ->
     issued (delete this model w).2
     = issued w ++ [CQuery (delete_statement this v)]
     /\ forall attributes,
          exists more,
            issued (Fork.update this model attributes w).2
            = issued w
                ++ CUpdateAndGet (update_statement this v attributes) :: more)
  /\ (prop_get (primaryKey this) (own o) = None ->
      proto o = None ->
      issued (delete this model w).2
      = issued w ++ [CQuery (delete_statement this VUndefined)]
      /\ forall attributes,
           exists more,
             issued (Fork.update this model attributes w).2
             = issued w
                 ++ CUpdateAndGet (update_statement this VUndefined attributes)
                      :: more).
Proof.
  intros Hmodel.
  assert (Hsent : forall key,
    get_property (heap w) model (primaryKey this) = key ->
    issued (delete this model w).2
    = issued w ++ [CQuery (delete_statement this key)]
    /\ forall attributes,
         exists more,
           issued (Fork.update this model attributes w).2
           = issued w
               ++ CUpdateAndGet (update_statement this key attributes) :: more).
  { intros key <-. split; [apply delete_issued|]. intros attributes.
    destruct (update_issued this model attributes w) as [-> | ->];
      eauto. }
  split.
  - intros v Hv. apply Hsent. by eapply get_property_own.
  - intros Hnone Hproto. apply Hsent. by eapply get_property_missing.
Qed.


(** *** The theorems at work on stub drivers *)

Import Examples.

Lemma get_statement_without_scope_witness :
  compile (get_statement (users (stub [] [] None) None) (VNumber 7) None None)
    dollar quoted
  = mkCompiledQuery
      (line 3 "SELECT *" +:+ line 3 "FROM " +:+ quoted "users"
         +:+ line 3 "WHERE " +:+ quoted "id" +:+ " = $0"
         +:+ line 3 ";" +:+ line 2 "")
      [VNumber 7].
Proof.
  pose proof (get_statement_without_scope (users (stub [] [] None) None)
                (VNumber 7) None None dollar quoted eq_refl) as Hcompiled.
  vm_compute in Hcompiled. vm_compute. exact Hcompiled.
Defined.

Lemma primary_key_comes_from_the_model_witness :
  issued (delete (users (stub [] [] None) None) 2%positive world0).2
  = issued world0
      ++ [CQuery (delete_statement (users (stub [] [] None) None) (VNumber 7))].
Proof.
  destruct (primary_key_comes_from_the_model (users (stub [] [] None) None)
              2%positive world0 {| proto := Some 1%positive; own := ann |}
              eq_refl) as [Hown _].
  exact (proj1 (Hown (VNumber 7) eq_refl)).
Defined.

End CrudRepositoryStatements.
